(** * dataspace_copernicus: search and download of Sentinel-2 products

    A shallow embedding of [download_datasets.py] and [base.py].

    The three functions of the script ([search_products],
    [get_access_token], [download_products]) and the loop that drives them
    ([search_and_download_datasets]) are written in a small state and
    exception monad.  The state holds what the script can change or show:
    the sequence of calls it makes to the outside (HTTP requests, lines
    printed, file-system calls) and the file system itself.  What the
    outside answers is a parameter of the development: [net] gives the
    response to each HTTP request (or a transport failure) and [os_fault]
    lets the operating system refuse a file-system call. *)

From Stdlib Require Import Strings.Ascii Strings.Byte.
From stdpp Require Import base option list strings gmap.

Open Scope string_scope.
Open Scope list_scope.

#[local] Set Warnings "-register-all".

(** ** Values *)

(** [datetime.date]: the three fields the script formats. *)
Record date := { year : nat; month : nat; day : nat }.

(** A parsed JSON document, as [Response.json()] returns it.  A number
    keeps its literal; an object is the list of its members (keys are
    distinct after parsing, [assoc] reads the first binding). *)
Inductive json :=
| JNull
| JBool (b : bool)
| JNum (literal : string)
| JStr (s : string)
| JArr (items : list json)
| JObj (members : list (string * json)).

(** The Python exceptions the script can meet.  [Exception_ msg payload]
    is [Exception(f"{msg}{payload}")]: the message is the literal text
    followed by the rendering of the JSON payload. *)
Inductive exn :=
| UnboundLocalError (name : string)
| IndexError
| KeyError (key : string)
| TypeError
| JSONDecodeError
| ConnectionError
| HTTPError (status : nat)
| ChunkedEncodingError
| FileExistsError
| IsADirectoryError
| OSError
| Exception_ (msg : string) (payload : json).

(** An HTTP response: the status line, the body as [json()] parses it
    ([None] when the body is not JSON), and the body as [iter_content]
    streams it: the chunks it yields and the error, if any, that ends the
    stream early. *)
Record response := {
  status_code : nat;
  json_body : option json;
  chunks : list (list Byte.byte);
  stream_error : option exn
}.

(** Arguments the script accepts and passes on without a fixed type. *)
Inductive pyarg :=
| PyNone
| PyDate (d : date)
| PyStr (s : string).

(** A cell read from a pandas row: a string of the JSON document, or NaN
    where the row has no value for the column. *)
Inductive cell :=
| CStr (s : string)
| CNaN.

(** The [products] dict that [search_products] fills and
    [download_products] reads. *)
Record products := {
  ids : cell;
  names : cell;
  tiles : string;
  origin_dates : cell
}.

(** ** Calls to the outside, state and monad *)

Inductive call :=
| Post (url : string) (data : list (string * string))
| Get (url : string)
| SessionGet (url : string) (headers : list (string * string))
| PrintLine (line : string)
| Makedirs (path : string)
| OpenWb (path : string)
| WriteChunk (path : string) (chunk : list Byte.byte).

(** The file system is keyed by the path strings the script builds:
    [dirs] are the directories, [files] the regular files and their
    contents.  [trace] lists the calls made so far, oldest first. *)
Record state := {
  trace : list call;
  dirs : gset string;
  files : gmap string (list Byte.byte)
}.

(** How a computation ends.  [Unmodelled] marks the inputs on which the
    libraries do something this development does not describe (pandas'
    handling of a [value] that is not an array of objects, or of cells that
    are not strings; the rendering of a token that is not a string). *)
Inductive outcome (A : Type) :=
| Returns (a : A)
| Raises (e : exn)
| Unmodelled.
Arguments Returns {A} a.
Arguments Raises {A} e.
Arguments Unmodelled {A}.

Definition M (A : Type) : Type := state → outcome A * state.

Definition ret {A} (a : A) : M A := λ st, (Returns a, st).
Definition raise {A} (e : exn) : M A := λ st, (Raises e, st).
Definition unmodelled {A} : M A := λ st, (Unmodelled, st).

Definition bind {A B} (c : M A) (k : A → M B) : M B :=
  λ st, match c st with
        | (Returns a, st') => k a st'
        | (Raises e, st') => (Raises e, st')
        | (Unmodelled, st') => (Unmodelled, st')
        end.

(** The notations [x ← c; k] and [c;; k] of stdpp stand for [bind]. *)
#[global] Instance M_ret : MRet M := @ret.
#[global] Instance M_bind : MBind M := λ A B k c, bind c k.

(** [try: ... except Exception as e:]: the outcome of the body, with an
    exception turned into a value for the handler. *)
Definition try_ {A} (body : M A) : M (exn + A) :=
  λ st, match body st with
        | (Returns a, st') => (Returns (inr a), st')
        | (Raises e, st') => (Returns (inl e), st')
        | (Unmodelled, st') => (Unmodelled, st')
        end.

(** Reading a local variable that an earlier line may not have bound. *)
Definition read_local {A} (name : string) (v : option A) : M A :=
  match v with
  | Some a => ret a
  | None => raise (UnboundLocalError name)
  end.

(** [for x in l: body]. *)
Fixpoint for_ {A} (l : list A) (body : A → M unit) : M unit :=
  match l with
  | [] => ret tt
  | x :: l' => body x;; for_ l' body
  end.

Definition log (c : call) : M unit :=
  λ st, (Returns tt,
         {| trace := trace st ++ [c]; dirs := dirs st; files := files st |}).

(** ** Pure helpers of the Python runtime *)

Definition digit (n : nat) : ascii := ascii_of_nat (48 + n mod 10).

(** [date.strftime("%Y%m%d")]: four, two and two decimal digits. *)
Definition strftime_Ymd (d : date) : string :=
  String (digit (year d / 1000)) (String (digit (year d / 100))
  (String (digit (year d / 10)) (String (digit (year d))
  (String (digit (month d / 10)) (String (digit (month d))
  (String (digit (day d / 10)) (String (digit (day d)) ""))))))).

Fixpoint assoc (k : string) (m : list (string * json)) : option json :=
  match m with
  | [] => None
  | (k', v) :: m' => if String.eqb k k' then Some v else assoc k m'
  end.

(** [j[key]] on a parsed JSON document. *)
Definition getitem (j : json) (key : string) : M json :=
  match j with
  | JObj m => match assoc key m with
              | Some v => ret v
              | None => raise (KeyError key)
              end
  | _ => raise TypeError
  end.

(** [str(c)] in an f-string. *)
Definition str_cell (c : cell) : string :=
  match c with
  | CStr s => s
  | CNaN => "nan"
  end.

(** [str(j)] in an f-string, for the values whose rendering is plain. *)
Definition str_json (j : json) : M string :=
  match j with
  | JStr s => ret s
  | JNull => ret "None"
  | JBool true => ret "True"
  | JBool false => ret "False"
  | _ => unmodelled
  end.

(** ** pandas, as far as the script uses it *)

Record DataFrame := {
  columns : list string;
  rows : list (list (string * json))
}.

Record Series := {
  index : list string;
  values : list (string * json)
}.

Fixpoint records (items : list json) : option (list (list (string * json))) :=
  match items with
  | [] => Some []
  | JObj m :: items' =>
      match records items' with
      | Some rs => Some (m :: rs)
      | None => None
      end
  | _ :: _ => None
  end.

(** [pd.DataFrame.from_dict(v)] for an array of objects: one row per
    object, one column per key met. *)
Definition DataFrame_from_dict (v : json) : M DataFrame :=
  match v with
  | JArr items =>
      match records items with
      | Some rs =>
          ret {| columns := remove_dups (concat (map (map fst) rs));
                 rows := rs |}
      | None => unmodelled
      end
  | _ => unmodelled
  end.

(** [df.iloc[0]]. *)
Definition iloc0 (df : DataFrame) : M Series :=
  match rows df with
  | [] => raise IndexError
  | r :: _ => ret {| index := columns df; values := r |}
  end.

(** [row[key]]. *)
Definition Series_getitem (s : Series) (key : string) : M cell :=
  if bool_decide (key ∈ index s) then
    match assoc key (values s) with
    | Some (JStr x) => ret (CStr x)
    | Some _ => unmodelled
    | None => ret CNaN
    end
  else raise (KeyError key).

(** ** base.py *)

Module base.
Definition Dataspace_username : string := "".
Definition Dataspace_password : string := "".
Definition tiles_test : list string := ["16QEJ"; "16QDH"].
End base.

(** ** download_datasets.py *)

Section Script.

(** The network: the response to a request, given the calls made before
    it; [None] is a transport failure. *)
Variable net : list call → call → option response.

(** The operating system may refuse a file-system call (permissions, a
    missing parent directory, a full disk): [Some e] makes the call raise
    [e]. *)
Variable os_fault : list call → call → option exn.

Definition http (c : call) : M response :=
  λ st, match net (trace st) c with
        | Some r => (log c;; ret r) st
        | None => (log c;; raise ConnectionError) st
        end.

Definition requests_post (url : string) (data : list (string * string)) : M response :=
  http (Post url data).

Definition requests_get (url : string) : M response :=
  http (Get url).

Definition Session_get (url : string) (headers : list (string * string)) : M response :=
  http (SessionGet url headers).

(** [r.raise_for_status()]: 4xx and 5xx raise. *)
Definition raise_for_status (r : response) : M unit :=
  if bool_decide (400 ≤ status_code r < 600)
  then raise (HTTPError (status_code r))
  else ret tt.

(** [r.json()]. *)
Definition response_json (r : response) : M json :=
  match json_body r with
  | Some j => ret j
  | None => raise JSONDecodeError
  end.

Definition print (line : string) : M unit := log (PrintLine line).

Definition syscall (c : call) (effect : state → outcome unit * state) : M unit :=
  λ st, match os_fault (trace st) c with
        | Some e => (log c;; raise e) st
        | None => (log c;; effect) st
        end.

(** [os.path.exists(p)]. *)
Definition os_path_exists (p : string) : M bool :=
  λ st, (Returns (bool_decide (p ∈ dirs st) || bool_decide (is_Some (files st !! p))), st).

(** [os.makedirs(p)]. *)
Definition os_makedirs (p : string) : M unit :=
  syscall (Makedirs p) (λ st,
    if bool_decide (p ∈ dirs st) || bool_decide (is_Some (files st !! p))
    then (Raises FileExistsError, st)
    else (Returns tt,
          {| trace := trace st; dirs := {[p]} ∪ dirs st; files := files st |})).

(** [open(p, 'wb')]: the file is created, or emptied when it exists. *)
Definition open_wb (p : string) : M unit :=
  syscall (OpenWb p) (λ st,
    if bool_decide (p ∈ dirs st)
    then (Raises IsADirectoryError, st)
    else (Returns tt,
          {| trace := trace st; dirs := dirs st; files := <[p := []]> (files st) |})).

(** [file.write(chunk)] on the file opened at [p]. *)
Definition file_write (p : string) (chunk : list Byte.byte) : M unit :=
  syscall (WriteChunk p chunk) (λ st,
    (Returns tt,
     {| trace := trace st; dirs := dirs st;
        files := <[p := (default [] (files st !! p) ++ chunk)%list]> (files st) |})).

(** [for chunk in response.iter_content(chunk_size=8192): body]. *)
Definition for_iter_content (r : response) (body : list Byte.byte → M unit) : M unit :=
  for_ (chunks r) body;;
  match stream_error r with
  | Some e => raise e
  | None => ret tt
  end.

Definition catalogue_url (date tile : string) : string :=
  "https://catalogue.dataspace.copernicus.eu/odata/v1/Products?$filter=contains(Name, '"
  +:+ date +:+ "') and contains(Name, '" +:+ tile +:+ "')".

Definition search_products (tile : string) (date : date) (search_string : pyarg)
    (product_type : string) (satellite query_args : pyarg) : M products :=
  let date := strftime_Ymd date in
  let level := if String.eqb product_type "L1C" then Some "MSIL1C" else None in
  level ← read_local "level" level;
  let date := level +:+ "_" +:+ date in
  let url := catalogue_url date tile in
  r ← requests_get url;
  json_response ← response_json r;
  value ← getitem json_response "value";
  df ← DataFrame_from_dict value;
  df ← iloc0 df;
  id_ds ← Series_getitem df "Id";
  name ← Series_getitem df "Name";
  origin_date ← Series_getitem df "OriginDate";
  print "<built-in function id>";;
  print (str_cell name);;
  ret {| ids := id_ds; names := name; tiles := tile; origin_dates := origin_date |}.

Definition token_url : string :=
  "https://identity.dataspace.copernicus.eu/auth/realms/CDSE/protocol/openid-connect/token".

Definition token_failed : string :=
  "Access token creation failed. Reponse from the server was: ".

Definition get_access_token (username password : string) : M json :=
  let data := [("client_id", "cdse-public"); ("username", username);
               ("password", password); ("grant_type", "password")] in
  let except (r : option response) : M json :=
    r ← read_local "r" r;
    payload ← response_json r;
    raise (Exception_ token_failed payload) in
  posted ← try_ (requests_post token_url data);
  match posted with
  | inl e => except None
  | inr r =>
      checked ← try_ (raise_for_status r);
      match checked with
      | inl e => except (Some r)
      | inr _ =>
          j ← response_json r;
          getitem j "access_token"
      end
  end.

Definition zipper_url (id : string) : string :=
  "https://zipper.dataspace.copernicus.eu/odata/v1/Products(" +:+ id +:+ ")/$value".

Definition tile_dir (datadir tile : string) : string :=
  datadir +:+ "T" +:+ tile.

Definition zip_path (datadir tile name : string) : string :=
  datadir +:+ "T" +:+ tile +:+ "/" +:+ name +:+ ".zip".

Definition download_products (products : products) (datadir : string)
    (unzip : bool) (max_retries : Z) (verbose : bool) : M unit :=
  access_token ← get_access_token base.Dataspace_username base.Dataspace_password;
  let id := ids products in
  let name := names products in
  let tile := tiles products in
  let origin_date := origin_dates products in
  let url := zipper_url (str_cell id) in
  bearer ← str_json access_token;
  let headers := [("Authorization", "Bearer " +:+ bearer)] in
  response ← Session_get url headers;
  present ← os_path_exists (tile_dir datadir tile);
  (if negb present then os_makedirs (tile_dir datadir tile) else ret tt);;
  if negb unzip then
    let path := zip_path datadir tile (str_cell name) in
    open_wb path;;
    print ("Downloading " +:+ tile +:+ " " +:+ str_cell origin_date +:+ " "
           +:+ str_cell id +:+ "...");;
    for_iter_content response (λ chunk,
      match chunk with
      | [] => ret tt
      | _ :: _ => file_write path chunk
      end)
  else ret tt.

Definition search_and_download_datasets (tiles : list string)
    (start_date end_date : date) (datadir : string) (unzip : bool)
    (max_retries : Z) (verbose : bool) (query_args : pyarg) : M unit :=
  for_ tiles (λ tile,
    products ← search_products tile start_date (PyDate end_date) "L1C" PyNone query_args;
    download_products products datadir unzip max_retries verbose).

End Script.

(** ** The script's entry point *)




(** ** Vocabulary of the properties *)

(** [keeps R c]: running [c] takes a state to one related to it by [R],
    however [c] ends. *)
Definition keeps (R : state → state → Prop) {A} (c : M A) : Prop :=
  ∀ st, R st (c st).2.

(** The state once the call [c] is on record. *)
Definition logged (c : call) (st : state) : state :=
  {| trace := trace st ++ [c]; dirs := dirs st; files := files st |}.

(** The directories are the same. *)
Definition same_dirs (st st' : state) : Prop := dirs st' = dirs st.

(** The regular files and their contents are the same. *)
Definition same_files (st st' : state) : Prop := files st' = files st.

(** The file system is the same. *)
Definition same_fs (st st' : state) : Prop :=
  dirs st' = dirs st ∧ files st' = files st.

(** The calls made between [st] and [st'] all satisfy [P]. *)
Definition emits (P : call → Prop) (st st' : state) : Prop :=
  ∃ evs, trace st' = trace st ++ evs ∧ Forall P evs.

(** The name token the catalogue query of a date carries. *)
Definition name_token (d : date) : string := "MSIL1C" +:+ "_" +:+ strftime_Ymd d.

(** A call that, when it is a catalogue request, asks for a tile of [tiles]
    at date [d]. *)
Definition searches_at (d : date) (tiles : list string) (c : call) : Prop :=
  ∀ url, c = Get url →
    ∃ tile, tile ∈ tiles ∧ url = catalogue_url (name_token d) tile.

Definition is_SessionGet (c : call) : bool :=
  match c with
  | SessionGet _ _ => true
  | _ => false
  end.

(** [os.path.exists(p)] as a proposition on the state. *)
Definition path_exists (p : string) (st : state) : Prop :=
  p ∈ dirs st ∨ is_Some (files st !! p).

(** The form fields of the token request. *)
Definition token_form (username password : string) : list (string * string) :=
  [("client_id", "cdse-public"); ("username", username);
   ("password", password); ("grant_type", "password")].

(** The token request does not go through: the transport fails, or the
    identity service answers with a 4xx or 5xx status. *)
Definition token_request_fails (net : list call → call → option response)
    (username password : string) (st : state) : Prop :=
  net (trace st) (Post token_url (token_form username password)) = None ∨
  ∃ r, net (trace st) (Post token_url (token_form username password)) = Some r ∧
       400 ≤ status_code r < 600.

(** Calls that create or fill a file. *)
Definition is_file_output (c : call) : bool :=
  match c with
  | OpenWb _ | WriteChunk _ _ => true
  | _ => false
  end.

(** Number of download requests among some calls. *)
Definition downloads_requested (evs : list call) : nat :=
  length (List.filter is_SessionGet evs).

(** The chunks that [download_products] writes: those that are not empty. *)
Definition nonempty_chunks (l : list (list Byte.byte)) : list (list Byte.byte) :=
  List.filter (λ chunk, match chunk with [] => false | _ :: _ => true end) l.

(** [download_products] after its request, in two steps: the lines that
    make the tile's directory, and the lines that write the archive
    ([download_products_split] puts them back together). *)
Definition make_tile_dir (os_fault : list call → call → option exn)
    (datadir tile : string) : M unit :=
  present ← os_path_exists (tile_dir datadir tile);
  if negb present then os_makedirs os_fault (tile_dir datadir tile) else ret tt.

(** The body of the loop over the chunks. *)
Definition write_chunk (os_fault : list call → call → option exn) (path : string)
    (chunk : list Byte.byte) : M unit :=
  match chunk with
  | [] => ret tt
  | _ :: _ => file_write os_fault path chunk
  end.

Definition write_archive (os_fault : list call → call → option exn)
    (p : products) (datadir : string) (unzip : bool) (response : response) : M unit :=
  if negb unzip then
    let path := zip_path datadir (tiles p) (str_cell (names p)) in
    open_wb os_fault path;;
    print ("Downloading " +:+ tiles p +:+ " " +:+ str_cell (origin_dates p) +:+ " "
           +:+ str_cell (ids p) +:+ "...");;
    for_iter_content response (write_chunk os_fault path)
  else ret tt.

(** The request of [download_products] for a product, with its header. *)
Definition download_request (p : products) (bearer : string) : call :=
  SessionGet (zipper_url (str_cell (ids p))) [("Authorization", "Bearer " +:+ bearer)].

(** The catalogue request of [search_products] for a tile and a date. *)
Definition search_request (tile : string) (d : date) : call :=
  Get (catalogue_url (name_token d) tile).

(** The token request of [get_access_token]. *)
Definition token_request (username password : string) : call :=
  Post token_url (token_form username password).



Definition is_Get (c : call) : bool :=
  match c with
  | Get _ => true
  | _ => false
  end.

Definition is_Post (c : call) : bool :=
  match c with
  | Post _ _ => true
  | _ => false
  end.

(** Number of calls of one kind among some calls. *)
Definition count_calls (kind : call → bool) (evs : list call) : nat :=
  length (List.filter kind evs).

(** ** Sample runs: the inputs of the examples below *)

Module Sample.
Definition st0 : state := {| trace := []; dirs := ∅; files := ∅ |}.

Definition jan16 : date := {| year := 2024; month := 1; day := 16 |}.
Definition jan17 : date := {| year := 2024; month := 1; day := 17 |}.

(** No request gets through; the operating system refuses nothing. *)
Definition net_down : list call → call → option response := λ _ _, None.
Definition os_ok : list call → call → option exn := λ _ _, None.

Definition reply (status : nat) (body : option json) (stream : list (list Byte.byte))
    : response :=
  {| status_code := status; json_body := body; chunks := stream;
     stream_error := None |}.

Definition entry : json :=
  JObj [("Id", JStr "abc"); ("Name", JStr "S2A_MSIL1C_20240116_T16QEJ");
        ("OriginDate", JStr "2024-01-16T00:00:00Z")].

Definition entry2 : json :=
  JObj [("Id", JStr "def"); ("Name", JStr "S2B_MSIL1C_20240116_T16QEJ");
        ("OriginDate", JStr "2024-01-16T01:00:00Z")].

(** A service that answers every request: two catalogue entries, a token
    and a three-chunk archive whose middle chunk is empty. *)
Definition net_ok : list call → call → option response := λ _ c,
  match c with
  | Get _ => Some (reply 200 (Some (JObj [("value", JArr [entry; entry2])])) [])
  | Post _ _ => Some (reply 200 (Some (JObj [("access_token", JStr "tok")])) [])
  | SessionGet _ _ => Some (reply 200 None [[x50; x4b]; []; [x03]])
  | _ => None
  end.

(** The catalogue has no entry. *)
Definition net_empty : list call → call → option response := λ _ c,
  match c with
  | Get _ => Some (reply 200 (Some (JObj [("value", JArr [])])) [])
  | _ => None
  end.

Definition invalid_grant : json :=
  JObj [("error", JStr "invalid_grant");
        ("error_description", JStr "Invalid user credentials")].

(** The identity service rejects the credentials. *)
Definition net_401 : list call → call → option response := λ _ c,
  match c with
  | Post _ _ => Some (reply 401 (Some invalid_grant) [])
  | _ => None
  end.

(** The identity service answers with status 300 and a token. *)
Definition net_300 : list call → call → option response := λ _ c,
  match c with
  | Post _ _ => Some (reply 300 (Some (JObj [("access_token", JStr "tok")])) [])
  | _ => None
  end.

(** A gateway answers for the identity service: status 502 and a body
    that is not JSON. *)
Definition net_502 : list call → call → option response := λ _ c,
  match c with
  | Post _ _ => Some (reply 502 None [])
  | _ => None
  end.

(** The catalogue answers with a page that is not JSON. *)
Definition net_html : list call → call → option response := λ _ c,
  match c with
  | Get _ => Some (reply 200 None [])
  | _ => None
  end.

(** The catalogue answers with an error document: no [value]. *)
Definition net_no_value : list call → call → option response := λ _ c,
  match c with
  | Get _ => Some (reply 200 (Some (JObj [("detail", JStr "Invalid filter")])) [])
  | _ => None
  end.

Definition entry_no_id : list (string * json) :=
  [("Name", JStr "S2A_MSIL1C_20240116_T16QEJ");
   ("OriginDate", JStr "2024-01-16T00:00:00Z")].

(** The catalogue's only entry has no [Id]. *)
Definition net_no_id : list call → call → option response := λ _ c,
  match c with
  | Get _ => Some (reply 200 (Some (JObj [("value", JArr [JObj entry_no_id])])) [])
  | _ => None
  end.

(** The first entry has no [Id], the second has one. *)
Definition net_late_id : list call → call → option response := λ _ c,
  match c with
  | Get _ =>
      Some (reply 200 (Some (JObj [("value", JArr [JObj entry_no_id; entry2])])) [])
  | _ => None
  end.

(** The identity service answers 200 without a token. *)
Definition net_no_token : list call → call → option response := λ _ c,
  match c with
  | Post _ _ => Some (reply 200 (Some (JObj [("token_type", JStr "Bearer")])) [])
  | _ => None
  end.

(** The token is granted, the download request does not get through. *)
Definition net_no_download : list call → call → option response := λ _ c,
  match c with
  | Post _ _ => Some (reply 200 (Some (JObj [("access_token", JStr "tok")])) [])
  | _ => None
  end.

(** The download breaks off after its first chunk. *)
Definition net_cut : list call → call → option response := λ _ c,
  match c with
  | Post _ _ => Some (reply 200 (Some (JObj [("access_token", JStr "tok")])) [])
  | SessionGet _ _ =>
      Some {| status_code := 200; json_body := None; chunks := [[x50; x4b]];
              stream_error := Some ChunkedEncodingError |}
  | _ => None
  end.

(** The catalogue answers; the identity service is out of reach. *)
Definition net_catalogue_only : list call → call → option response := λ _ c,
  match c with
  | Get _ => Some (reply 200 (Some (JObj [("value", JArr [entry; entry2])])) [])
  | _ => None
  end.

(** The token is granted; the download service answers 404 with a short
    body. *)
Definition net_404 : list call → call → option response := λ _ c,
  match c with
  | Post _ _ => Some (reply 200 (Some (JObj [("access_token", JStr "tok")])) [])
  | SessionGet _ _ => Some (reply 404 None [[x7b; x7d]])
  | _ => None
  end.

Definition product : products :=
  {| ids := CStr "abc"; names := CStr "S2A_MSIL1C_20240116_T16QEJ";
     tiles := "16QEJ"; origin_dates := CStr "2024-01-16T00:00:00Z" |}.
End Sample.

(** * Properties *)

(** ** Running a sequence *)

Lemma bind_run {A B} (c : M A) (k : A → M B) (st : state) :
  (c ≫= k) st = match c st with
                | (Returns a, st') => k a st'
                | (Raises e, st') => (Raises e, st')
                | (Unmodelled, st') => (Unmodelled, st')
                end.
Proof. reflexivity. Qed.

Lemma bind_Returns {A B} (c : M A) (k : A → M B) st a st' :
  c st = (Returns a, st') → (c ≫= k) st = k a st'.
Proof. intros H. rewrite bind_run, H. reflexivity. Qed.

Lemma bind_Raises {A B} (c : M A) (k : A → M B) st e st' :
  c st = (Raises e, st') → (c ≫= k) st = (Raises e, st').
Proof. intros H. rewrite bind_run, H. reflexivity. Qed.

Lemma for_app {A} (l1 l2 : list A) (body : A → M unit) st :
  for_ (l1 ++ l2) body st =
  match for_ l1 body st with
  | (Returns _, st') => for_ l2 body st'
  | (Raises e, st') => (Raises e, st')
  | (Unmodelled, st') => (Unmodelled, st')
  end.
Proof.
  revert st. induction l1 as [|x l1 IH]; intros st; simpl.
  - reflexivity.
  - rewrite !bind_run. destruct (body x st) as [[[]|e|] st1]; auto.
Qed.

(** ** Relations every step of a computation keeps

    For a reflexive and transitive [R], [keeps R] goes through sequences,
    handlers and loops. *)

Section Frame.
Variable R : state → state → Prop.
Hypothesis R_refl : ∀ st, R st st.
Hypothesis R_trans : ∀ a b c, R a b → R b c → R a c.

Lemma keeps_ret {A} (a : A) : keeps R (ret a).
Proof. intros st. apply R_refl. Qed.

Lemma keeps_raise {A} (e : exn) : keeps R (raise e : M A).
Proof. intros st. apply R_refl. Qed.

Lemma keeps_unmodelled {A} : keeps R (unmodelled : M A).
Proof. intros st. apply R_refl. Qed.

Lemma keeps_bind {A B} (c : M A) (k : A → M B) :
  keeps R c → (∀ a, keeps R (k a)) → keeps R (c ≫= k).
Proof.
  intros Hc Hk st. rewrite bind_run.
  specialize (Hc st). destruct (c st) as [[a|e|] st1]; simpl in *; auto.
  eapply R_trans; [exact Hc | apply Hk].
Qed.

Lemma keeps_try {A} (body : M A) : keeps R body → keeps R (try_ body).
Proof.
  intros Hb st. unfold try_. specialize (Hb st).
  destruct (body st) as [[a|e|] st1]; simpl in *; auto.
Qed.

Lemma keeps_for_in {A} (l : list A) (body : A → M unit) :
  (∀ x, x ∈ l → keeps R (body x)) → keeps R (for_ l body).
Proof.
  induction l as [|x l IH]; intros Hb; simpl.
  - apply keeps_ret.
  - apply keeps_bind.
    + apply Hb. left.
    + intros _. apply IH. intros y Hy. apply Hb. right. exact Hy.
Qed.

Lemma keeps_for {A} (l : list A) (body : A → M unit) :
  (∀ x, keeps R (body x)) → keeps R (for_ l body).
Proof. intros Hb. apply keeps_for_in. auto. Qed.

Lemma keeps_read_local {A} name (v : option A) : keeps R (read_local name v).
Proof. destruct v; [apply keeps_ret | apply keeps_raise]. Qed.

Lemma keeps_getitem j key : keeps R (getitem j key).
Proof.
  unfold getitem. destruct j; try apply keeps_raise.
  destruct (assoc key members); [apply keeps_ret | apply keeps_raise].
Qed.

Lemma keeps_str_json j : keeps R (str_json j).
Proof.
  unfold str_json.
  destruct j as [|[]| | | |]; try apply keeps_ret; apply keeps_unmodelled.
Qed.

Lemma keeps_DataFrame_from_dict v : keeps R (DataFrame_from_dict v).
Proof.
  unfold DataFrame_from_dict. destruct v; try apply keeps_unmodelled.
  destruct (records items); [apply keeps_ret | apply keeps_unmodelled].
Qed.

Lemma keeps_iloc0 df : keeps R (iloc0 df).
Proof.
  unfold iloc0. destruct (rows df); [apply keeps_raise | apply keeps_ret].
Qed.

Lemma keeps_Series_getitem s key : keeps R (Series_getitem s key).
Proof.
  unfold Series_getitem. case_bool_decide; [|apply keeps_raise].
  destruct (assoc key (values s)) as [[]|];
    try apply keeps_unmodelled; apply keeps_ret.
Qed.

Lemma keeps_response_json r : keeps R (response_json r).
Proof.
  unfold response_json. destruct (json_body r); [apply keeps_ret | apply keeps_raise].
Qed.

Lemma keeps_raise_for_status r : keeps R (raise_for_status r).
Proof.
  unfold raise_for_status. case_bool_decide; [apply keeps_raise | apply keeps_ret].
Qed.

Lemma keeps_os_path_exists p : keeps R (os_path_exists p).
Proof. intros st. apply R_refl. Qed.

Section Outside.
Variable net : list call → call → option response.
Variable os_fault : list call → call → option exn.

Lemma keeps_http c : keeps R (log c) → keeps R (http net c).
Proof.
  intros Hl st. unfold http.
  destruct (net (trace st) c); rewrite bind_run; simpl; apply Hl.
Qed.

Lemma keeps_syscall c effect :
  keeps R (log c) → keeps R effect → keeps R (syscall os_fault c effect).
Proof.
  intros Hl He st. unfold syscall.
  destruct (os_fault (trace st) c).
  - rewrite bind_run; simpl. apply Hl.
  - apply (keeps_bind (log c) (λ _, effect)); auto.
Qed.

Lemma keeps_search_products tile d ss sat qa :
  keeps R (log (Get (catalogue_url (name_token d) tile))) →
  (∀ line, keeps R (log (PrintLine line))) →
  keeps R (search_products net tile d ss "L1C" sat qa).
Proof.
  intros Hget Hprint st. unfold search_products.
  erewrite bind_Returns by reflexivity.
  revert st. fold (name_token d).
  apply keeps_bind; [apply keeps_http, Hget|]. intros r.
  apply keeps_bind; [apply keeps_response_json|]. intros j.
  apply keeps_bind; [apply keeps_getitem|]. intros v.
  apply keeps_bind; [apply keeps_DataFrame_from_dict|]. intros df.
  apply keeps_bind; [apply keeps_iloc0|]. intros row.
  apply keeps_bind; [apply keeps_Series_getitem|]. intros id_ds.
  apply keeps_bind; [apply keeps_Series_getitem|]. intros name.
  apply keeps_bind; [apply keeps_Series_getitem|]. intros od.
  apply keeps_bind; [apply Hprint|]. intros _.
  apply keeps_bind; [apply Hprint|]. intros _.
  apply keeps_ret.
Qed.

Lemma keeps_get_access_token username password :
  (∀ url data, keeps R (log (Post url data))) →
  keeps R (get_access_token net username password).
Proof.
  intros Hpost. unfold get_access_token.
  apply keeps_bind; [apply keeps_try, keeps_http, Hpost|].
  intros [e|r].
  - apply keeps_bind; [apply keeps_read_local|]. intros r.
    apply keeps_bind; [apply keeps_response_json|]. intros j.
    apply keeps_raise.
  - apply keeps_bind; [apply keeps_try, keeps_raise_for_status|].
    intros [e|[]].
    + apply keeps_bind; [apply keeps_read_local|]. intros r'.
      apply keeps_bind; [apply keeps_response_json|]. intros j.
      apply keeps_raise.
    + apply keeps_bind; [apply keeps_response_json|]. intros j.
      apply keeps_getitem.
Qed.

Lemma keeps_for_iter_content r body :
  (∀ chunk, keeps R (body chunk)) → keeps R (for_iter_content r body).
Proof.
  intros Hb. unfold for_iter_content.
  apply keeps_bind; [apply keeps_for, Hb|]. intros _.
  destruct (stream_error r); [apply keeps_raise | apply keeps_ret].
Qed.

(** The steps of [download_products]; those of the branch that writes
    the archive matter only when [unzip] is false. *)
Lemma keeps_download_products p datadir unzip max_retries verbose :
  (∀ url data, keeps R (log (Post url data))) →
  (∀ url headers, keeps R (log (SessionGet url headers))) →
  keeps R (os_makedirs os_fault (tile_dir datadir (tiles p))) →
  (unzip = false →
     (∀ path, keeps R (open_wb os_fault path)) ∧
     (∀ line, keeps R (log (PrintLine line))) ∧
     (∀ path chunk, keeps R (file_write os_fault path chunk))) →
  keeps R (download_products net os_fault p datadir unzip max_retries verbose).
Proof.
  intros Hpost Hsget Hmk Hfile. unfold download_products.
  apply keeps_bind; [apply keeps_get_access_token, Hpost|]. intros tok.
  apply keeps_bind; [apply keeps_str_json|]. intros bearer.
  apply keeps_bind; [apply keeps_http, Hsget|]. intros r.
  apply keeps_bind; [apply keeps_os_path_exists|]. intros present.
  apply keeps_bind.
  { destruct present; simpl; [apply keeps_ret | apply Hmk]. }
  intros _. destruct unzip; simpl; [apply keeps_ret|].
  destruct (Hfile eq_refl) as (Hopen & Hprint & Hwrite).
  apply keeps_bind; [apply Hopen|]. intros _.
  apply keeps_bind; [apply Hprint|]. intros _.
  apply keeps_for_iter_content. intros [|b chunk];
    [apply keeps_ret | apply Hwrite].
Qed.
End Outside.
End Frame.

(** ** Search *)

Lemma http_Some net c st r :
  net (trace st) c = Some r → http net c st = (Returns r, logged c st).
Proof. intros H. unfold http. rewrite H. reflexivity. Qed.

Lemma http_None net c st :
  net (trace st) c = None → http net c st = (Raises ConnectionError, logged c st).
Proof. intros H. unfold http. rewrite H. reflexivity. Qed.

Lemma assoc_fst k m v : assoc k m = Some v → k ∈ map fst m.
Proof.
  induction m as [|[k' v'] m IH]; simpl; [discriminate|].
  destruct (String.eqb_spec k k') as [->|Hne]; intros H.
  - left.
  - right. auto.
Qed.

Section Catalogue.
Variable net : list call → call → option response.

(** Up to the indexing of the data frame, the run is fixed by the
    response's [value]. *)
Lemma search_products_value tile d ss sat qa st r m v :
  net (trace st) (Get (catalogue_url (name_token d) tile)) = Some r →
  json_body r = Some (JObj m) →
  assoc "value" m = Some v →
  search_products net tile d ss "L1C" sat qa st =
  (df ← DataFrame_from_dict v;
   df ← iloc0 df;
   id_ds ← Series_getitem df "Id";
   name ← Series_getitem df "Name";
   origin_date ← Series_getitem df "OriginDate";
   print "<built-in function id>";;
   print (str_cell name);;
   ret {| ids := id_ds; names := name; tiles := tile;
          origin_dates := origin_date |})
    (logged (Get (catalogue_url (name_token d) tile)) st).
Proof.
  intros Hnet Hbody Hval. unfold search_products.
  erewrite bind_Returns by reflexivity.
  erewrite bind_Returns by (apply http_Some, Hnet).
  erewrite bind_Returns by (unfold response_json; rewrite Hbody; reflexivity).
  erewrite bind_Returns by (unfold getitem; rewrite Hval; reflexivity).
  reflexivity.
Qed.

(** C3.  When the catalogue answers the query for a tile and a date with
    an empty array of matches, [search_products] raises [IndexError] (the
    indexing [iloc[0]] of a frame without rows): it returns no product
    descriptor, and nothing has happened but the catalogue request. *)
Theorem search_products_no_match tile d ss sat qa st r m :
  net (trace st) (Get (catalogue_url (name_token d) tile)) = Some r →
  json_body r = Some (JObj m) →
  assoc "value" m = Some (JArr []) →
  search_products net tile d ss "L1C" sat qa st =
  (Raises IndexError, logged (Get (catalogue_url (name_token d) tile)) st).
Proof.
  intros Hnet Hbody Hval.
  rewrite (search_products_value _ _ _ _ _ _ _ _ _ Hnet Hbody Hval).
  reflexivity.
Qed.

(** C4.  When the catalogue answers with an array of matches (objects)
    whose first one carries the strings [Id], [Name] and [OriginDate],
    [search_products] returns the descriptor made of that first match's
    [Id] and [Name], verbatim, and of the tile it was given; the matches
    after the first play no part. *)
Theorem search_products_first_match tile d ss sat qa st r m first others rs i n o :
  net (trace st) (Get (catalogue_url (name_token d) tile)) = Some r →
  json_body r = Some (JObj m) →
  assoc "value" m = Some (JArr (JObj first :: others)) →
  records others = Some rs →
  assoc "Id" first = Some (JStr i) →
  assoc "Name" first = Some (JStr n) →
  assoc "OriginDate" first = Some (JStr o) →
  search_products net tile d ss "L1C" sat qa st =
  (Returns {| ids := CStr i; names := CStr n; tiles := tile;
              origin_dates := CStr o |},
   logged (PrintLine n) (logged (PrintLine "<built-in function id>")
     (logged (Get (catalogue_url (name_token d) tile)) st))).
Proof.
  intros Hnet Hbody Hval Hrs Hi Hn Ho.
  rewrite (search_products_value _ _ _ _ _ _ _ _ _ Hnet Hbody Hval).
  assert (Hcol : ∀ (s : Series) k v,
            values s = first →
            index s = remove_dups (concat (map (map fst) (first :: rs))) →
            assoc k first = Some v →
            Series_getitem s k =
            match v with JStr x => ret (CStr x) | _ => unmodelled end).
  { intros s k v Hv Hx Hk. unfold Series_getitem. rewrite Hv, Hx.
    rewrite bool_decide_eq_true_2.
    - rewrite Hk. reflexivity.
    - apply elem_of_remove_dups. simpl. apply elem_of_app. left.
      eapply assoc_fst, Hk. }
  erewrite bind_Returns
    by (unfold DataFrame_from_dict; cbn [records]; rewrite Hrs; reflexivity).
  erewrite bind_Returns by reflexivity.
  erewrite bind_Returns
    by (erewrite Hcol by first [exact Hi | reflexivity]; reflexivity).
  erewrite bind_Returns
    by (erewrite Hcol by first [exact Hn | reflexivity]; reflexivity).
  erewrite bind_Returns
    by (erewrite Hcol by first [exact Ho | reflexivity]; reflexivity).
  reflexivity.
Qed.

(** C10.  With a product type other than ["L1C"] the name [level] is
    never bound: [search_products] raises [UnboundLocalError] and the
    state is untouched, so no request has been issued. *)
Theorem search_products_unbound_level tile d ss product_type sat qa st :
  product_type ≠ "L1C" →
  search_products net tile d ss product_type sat qa st =
  (Raises (UnboundLocalError "level"), st).
Proof.
  intros Hne. unfold search_products.
  apply String.eqb_neq in Hne. rewrite Hne. reflexivity.
Qed.
End Catalogue.

Lemma search_products_no_match_witness :
  search_products Sample.net_empty "16QEJ" Sample.jan16 PyNone "L1C" PyNone PyNone
    Sample.st0 =
  (Raises IndexError,
   logged (Get (catalogue_url (name_token Sample.jan16) "16QEJ")) Sample.st0).
Proof.
  apply (search_products_no_match Sample.net_empty "16QEJ" Sample.jan16
           PyNone PyNone PyNone Sample.st0
           (Sample.reply 200 (Some (JObj [("value", JArr [])])) [])
           [("value", JArr [])]); reflexivity.
Defined.

Lemma search_products_first_match_witness :
  search_products Sample.net_ok "16QEJ" Sample.jan16 (PyDate Sample.jan17) "L1C"
    PyNone PyNone Sample.st0 =
  (Returns Sample.product,
   logged (PrintLine "S2A_MSIL1C_20240116_T16QEJ")
     (logged (PrintLine "<built-in function id>")
        (logged (Get (catalogue_url (name_token Sample.jan16) "16QEJ")) Sample.st0))).
Proof.
  apply (search_products_first_match Sample.net_ok "16QEJ" Sample.jan16
           (PyDate Sample.jan17) PyNone PyNone Sample.st0
           (Sample.reply 200
              (Some (JObj [("value", JArr [Sample.entry; Sample.entry2])])) [])
           [("value", JArr [Sample.entry; Sample.entry2])]
           [("Id", JStr "abc"); ("Name", JStr "S2A_MSIL1C_20240116_T16QEJ");
            ("OriginDate", JStr "2024-01-16T00:00:00Z")]
           [Sample.entry2]
           [[("Id", JStr "def"); ("Name", JStr "S2B_MSIL1C_20240116_T16QEJ");
             ("OriginDate", JStr "2024-01-16T01:00:00Z")]]
           "abc" "S2A_MSIL1C_20240116_T16QEJ" "2024-01-16T00:00:00Z");
    reflexivity.
Defined.

Lemma search_products_unbound_level_witness :
  "L2A" ≠ "L1C" ∧
  search_products Sample.net_ok "16QEJ" Sample.jan16 PyNone "L2A" PyNone PyNone
    Sample.st0 =
  (Raises (UnboundLocalError "level"), Sample.st0).
Proof.
  split; [discriminate|].
  apply (search_products_unbound_level Sample.net_ok "16QEJ" Sample.jan16 PyNone
           "L2A" PyNone PyNone Sample.st0).
  discriminate.
Defined.

(** ** The access token *)

Section Token.
Variable net : list call → call → option response.

(** The three ways a call to [get_access_token] goes, by what the token
    request meets. *)
Lemma get_access_token_run username password st :
  get_access_token net username password st =
  let post := Post token_url (token_form username password) in
  match net (trace st) post with
  | None => (Raises (UnboundLocalError "r"), logged post st)
  | Some r =>
      if bool_decide (400 ≤ status_code r < 600) then
        match json_body r with
        | Some payload => (Raises (Exception_ token_failed payload), logged post st)
        | None => (Raises JSONDecodeError, logged post st)
        end
      else (j ← response_json r; getitem j "access_token") (logged post st)
  end.
Proof.
  unfold get_access_token, token_form, requests_post. cbv zeta.
  rewrite bind_run. unfold try_ at 1.
  destruct (net (trace st) _) as [r|] eqn:Hnet.
  - rewrite (http_Some _ _ _ _ Hnet).
    rewrite bind_run. unfold try_, raise_for_status.
    case_bool_decide; [|reflexivity].
    unfold raise. rewrite bind_run. simpl read_local. unfold ret at 1.
    rewrite bind_run. unfold response_json.
    destruct (json_body r); reflexivity.
  - rewrite (http_None _ _ _ Hnet). reflexivity.
Qed.

(** C2, as the code has it.  When the token request meets a transport
    failure or a 4xx/5xx status, [get_access_token] raises and returns no
    token; when the 4xx/5xx response has a JSON body, what it raises is
    the [Exception] whose message reports that payload. *)
Theorem get_access_token_failure username password st :
  token_request_fails net username password st →
  (∃ e, (get_access_token net username password st).1 = Raises e) ∧
  (∀ r payload,
     net (trace st) (Post token_url (token_form username password)) = Some r →
     json_body r = Some payload →
     (get_access_token net username password st).1 =
     Raises (Exception_ token_failed payload)).
Proof.
  intros Hfail. rewrite get_access_token_run. cbv zeta.
  destruct Hfail as [Hnone|(r & Hr & Hstatus)].
  - rewrite Hnone. split; [eauto|]. intros ? ? [=].
  - rewrite Hr. rewrite bool_decide_eq_true_2 by exact Hstatus.
    split.
    + destruct (json_body r); eauto.
    + intros r' payload [= <-] ->. reflexivity.
Qed.
End Token.

Lemma get_access_token_failure_witness :
  token_request_fails Sample.net_401 "" "" Sample.st0 ∧
  (get_access_token Sample.net_401 "" "" Sample.st0).1 =
  Raises (Exception_ token_failed Sample.invalid_grant).
Proof.
  assert (Hfail : token_request_fails Sample.net_401 "" "" Sample.st0).
  { right. exists (Sample.reply 401 (Some Sample.invalid_grant) []).
    split; [reflexivity | simpl; lia]. }
  split; [exact Hfail|].
  apply (proj2 (get_access_token_failure Sample.net_401 "" "" Sample.st0 Hfail)
           (Sample.reply 401 (Some Sample.invalid_grant) []) Sample.invalid_grant);
    reflexivity.
Defined.

(** C2, as the claim has it, fails.  On a transport failure the handler
    reads [r], which the failed [requests.post] never bound: the error is
    [UnboundLocalError] and reports no payload.  A status that is neither
    2xx nor 4xx/5xx passes [raise_for_status]: with status 300 the call
    returns the token of the body.  And a 502 whose body is not JSON makes
    the handler's [r.json()] raise: the error is the decoding error. *)
Lemma get_access_token_failure_counterexample :
  get_access_token Sample.net_down "" "" Sample.st0 =
    (Raises (UnboundLocalError "r"),
     logged (Post token_url (token_form "" "")) Sample.st0) ∧
  get_access_token Sample.net_300 "" "" Sample.st0 =
    (Returns (JStr "tok"),
     logged (Post token_url (token_form "" "")) Sample.st0) ∧
  get_access_token Sample.net_502 "" "" Sample.st0 =
    (Raises JSONDecodeError,
     logged (Post token_url (token_form "" "")) Sample.st0).
Proof. repeat split; reflexivity. Qed.

(** ** The relations in use *)

Lemma same_files_refl st : same_files st st.
Proof. reflexivity. Qed.

Lemma same_files_trans a b c : same_files a b → same_files b c → same_files a c.
Proof. unfold same_files. congruence. Qed.

Lemma same_fs_refl st : same_fs st st.
Proof. split; reflexivity. Qed.

Lemma same_fs_trans a b c : same_fs a b → same_fs b c → same_fs a c.
Proof. unfold same_fs. intros [] []. split; congruence. Qed.

Lemma emits_refl P st : emits P st st.
Proof. exists []. split; [symmetry; apply app_nil_r | constructor]. Qed.

Lemma emits_trans P a b c : emits P a b → emits P b c → emits P a c.
Proof.
  intros (e1 & H1 & F1) (e2 & H2 & F2). exists (e1 ++ e2). split.
  - rewrite H2, H1. symmetry. apply app_assoc.
  - apply Forall_app. auto.
Qed.

Lemma log_same_files c : keeps same_files (log c).
Proof. intros st. reflexivity. Qed.

Lemma log_same_fs c : keeps same_fs (log c).
Proof. intros st. split; reflexivity. Qed.

Lemma log_emits (P : call → Prop) c : P c → keeps (emits P) (log c).
Proof. intros Hc st. exists [c]. split; [reflexivity | repeat constructor; exact Hc]. Qed.

Lemma syscall_emits (P : call → Prop) os_fault c effect :
  P c → (∀ st, trace (effect st).2 = trace st) →
  keeps (emits P) (syscall os_fault c effect).
Proof.
  intros Hc He. apply keeps_syscall.
  - apply emits_trans.
  - apply log_emits, Hc.
  - intros st. exists []. rewrite He. split; [symmetry; apply app_nil_r | constructor].
Qed.

Lemma os_makedirs_emits (P : call → Prop) os_fault p :
  P (Makedirs p) → keeps (emits P) (os_makedirs os_fault p).
Proof.
  intros Hc. apply syscall_emits; [exact Hc|]. intros st.
  destruct (_ || _); reflexivity.
Qed.

Lemma open_wb_emits (P : call → Prop) os_fault p :
  P (OpenWb p) → keeps (emits P) (open_wb os_fault p).
Proof.
  intros Hc. apply syscall_emits; [exact Hc|]. intros st.
  case_bool_decide; reflexivity.
Qed.

Lemma file_write_emits (P : call → Prop) os_fault p chunk :
  P (WriteChunk p chunk) → keeps (emits P) (file_write os_fault p chunk).
Proof. intros Hc. apply syscall_emits; [exact Hc|]. reflexivity. Qed.

Lemma os_makedirs_same_files os_fault p : keeps same_files (os_makedirs os_fault p).
Proof.
  apply keeps_syscall.
  - apply same_files_trans.
  - apply log_same_files.
  - intros st. destruct (_ || _); reflexivity.
Qed.

(** Every call [download_products] can make satisfies [P] when those of
    its five kinds do. *)
Lemma download_products_emits (P : call → Prop) net os_fault p datadir unzip
    max_retries verbose :
  (∀ url data, P (Post url data)) →
  (∀ url headers, P (SessionGet url headers)) →
  P (Makedirs (tile_dir datadir (tiles p))) →
  (unzip = false →
     (∀ path, P (OpenWb path)) ∧ (∀ line, P (PrintLine line)) ∧
     (∀ path chunk, P (WriteChunk path chunk))) →
  keeps (emits P) (download_products net os_fault p datadir unzip max_retries verbose).
Proof.
  intros Hpost Hsget Hmk Hfile. apply keeps_download_products.
  - apply emits_refl.
  - apply emits_trans.
  - intros. apply log_emits, Hpost.
  - intros. apply log_emits, Hsget.
  - apply os_makedirs_emits, Hmk.
  - intros Hu. destruct (Hfile Hu) as (Ho & Hp & Hw). repeat split; intros.
    + apply open_wb_emits, Ho.
    + apply log_emits, Hp.
    + apply file_write_emits, Hw.
Qed.

(** ** Download *)

(** C5.  With [unzip=True], [download_products] writes no file: the regular
    files and their contents are what they were, and none of the calls it
    makes opens or writes a file. *)
Theorem download_products_unzip_writes_nothing net os_fault p datadir
    max_retries verbose st :
  let st' := (download_products net os_fault p datadir true max_retries verbose st).2 in
  files st' = files st ∧ emits (λ c, is_file_output c = false) st st'.
Proof.
  split.
  - apply (keeps_download_products same_files same_files_refl same_files_trans);
      try (intros; apply log_same_files).
    + apply os_makedirs_same_files.
    + discriminate.
  - apply download_products_emits; try reflexivity. discriminate.
Qed.

Lemma download_products_split net os_fault p datadir unzip max_retries verbose :
  download_products net os_fault p datadir unzip max_retries verbose =
  (access_token ← get_access_token net base.Dataspace_username base.Dataspace_password;
   bearer ← str_json access_token;
   response ← http net (download_request p bearer);
   make_tile_dir os_fault datadir (tiles p);;
   write_archive os_fault p datadir unzip response).
Proof. reflexivity. Qed.

Lemma str_json_pure j st : (str_json j st).2 = st.
Proof. destruct j as [|[]| | | |]; reflexivity. Qed.

Lemma downloads_requested_app e1 e2 :
  downloads_requested (e1 ++ e2) = downloads_requested e1 + downloads_requested e2.
Proof. unfold downloads_requested. rewrite List.filter_app, length_app. reflexivity. Qed.

Lemma downloads_requested_none evs :
  Forall (λ c, is_SessionGet c = false) evs → downloads_requested evs = 0.
Proof.
  unfold downloads_requested. induction 1 as [|c evs Hc _ IH]; simpl; [reflexivity|].
  rewrite Hc. exact IH.
Qed.

Lemma write_archive_emits (P : call → Prop) os_fault p datadir unzip r :
  (∀ path, P (OpenWb path)) → (∀ line, P (PrintLine line)) →
  (∀ path chunk, P (WriteChunk path chunk)) →
  keeps (emits P) (write_archive os_fault p datadir unzip r).
Proof.
  intros Ho Hp Hw. unfold write_archive. destruct unzip; simpl.
  - apply keeps_ret, emits_refl.
  - apply keeps_bind; [apply emits_trans|apply open_wb_emits, Ho|]. intros _.
    apply keeps_bind; [apply emits_trans|apply log_emits, Hp|]. intros _.
    apply keeps_for_iter_content; [apply emits_refl|apply emits_trans|].
    intros [|b chunk]; [apply keeps_ret, emits_refl | apply file_write_emits, Hw].
Qed.

Lemma after_request_emits (P : call → Prop) os_fault p datadir unzip r :
  P (Makedirs (tile_dir datadir (tiles p))) →
  (∀ path, P (OpenWb path)) → (∀ line, P (PrintLine line)) →
  (∀ path chunk, P (WriteChunk path chunk)) →
  keeps (emits P)
    (make_tile_dir os_fault datadir (tiles p);; write_archive os_fault p datadir unzip r).
Proof.
  intros Hmk Ho Hp Hw.
  apply keeps_bind; [apply emits_trans| |].
  - unfold make_tile_dir. apply keeps_bind; [apply emits_trans| |].
    + apply keeps_os_path_exists, emits_refl.
    + intros []; simpl.
      * apply keeps_ret, emits_refl.
      * apply os_makedirs_emits, Hmk.
  - intros _. apply write_archive_emits; auto.
Qed.

(** One call to [download_products] issues at most one download request,
    however the call ends. *)
Lemma download_products_one_request net os_fault p datadir unzip max_retries verbose st :
  ∃ evs,
    trace (download_products net os_fault p datadir unzip max_retries verbose st).2 =
      trace st ++ evs ∧
    (downloads_requested evs ≤ 1)%nat.
Proof.
  rewrite download_products_split.
  pose proof (keeps_get_access_token (emits (λ c, is_SessionGet c = false))
                (emits_refl _) (emits_trans _) net
                base.Dataspace_username base.Dataspace_password
                (λ url data, log_emits _ (Post url data) eq_refl) st)
    as (evs1 & Htr1 & Hno1).
  apply downloads_requested_none in Hno1.
  rewrite bind_run.
  destruct (get_access_token _ _ _ st) as [[tok|e|] st1]; simpl in Htr1;
    try (exists evs1; split; [exact Htr1 | lia]).
  rewrite bind_run. pose proof (str_json_pure tok st1) as Hpure.
  destruct (str_json tok st1) as [[bearer|e|] st1']; simpl in Hpure; subst st1';
    try (exists evs1; split; [exact Htr1 | lia]).
  rewrite bind_run. unfold http.
  destruct (net (trace st1) _) as [r|].
  - simpl.
    pose proof (after_request_emits (λ c, is_SessionGet c = false) os_fault p datadir
                  unzip r eq_refl (λ _, eq_refl) (λ _, eq_refl) (λ _ _, eq_refl)
                  (logged (download_request p bearer) st1))
      as (evs2 & Htr2 & Hno2).
    apply downloads_requested_none in Hno2.
    exists (evs1 ++ [download_request p bearer] ++ evs2). split.
    + etrans; [exact Htr2|]. simpl trace. rewrite Htr1, <- !app_assoc. reflexivity.
    + rewrite !downloads_requested_app, Hno1, Hno2.
      change (downloads_requested [download_request p bearer]) with 1. lia.
  - simpl. exists (evs1 ++ [download_request p bearer]). split.
    + rewrite Htr1, <- app_assoc. reflexivity.
    + rewrite downloads_requested_app, Hno1.
      change (downloads_requested [download_request p bearer]) with 1. lia.
Qed.

(** C9.  Two calls that differ only in [max_retries] run alike, for
    [download_products] and for [search_and_download_datasets]: same
    outcome, same calls, same file system.  And nothing is retried: a call
    to [download_products] issues at most one download request. *)
Theorem max_retries_never_consulted net os_fault p tiles start_date end_date
    datadir unzip (m1 m2 : Z) verbose query_args st :
  download_products net os_fault p datadir unzip m1 verbose st =
    download_products net os_fault p datadir unzip m2 verbose st ∧
  search_and_download_datasets net os_fault tiles start_date end_date datadir
      unzip m1 verbose query_args st =
    search_and_download_datasets net os_fault tiles start_date end_date datadir
      unzip m2 verbose query_args st ∧
  ∃ evs,
    trace (download_products net os_fault p datadir unzip m1 verbose st).2 =
      trace st ++ evs ∧
    (downloads_requested evs ≤ 1)%nat.
Proof.
  split; [reflexivity|]. split; [reflexivity|].
  apply download_products_one_request.
Qed.

(** ** The loop over the tiles *)

(** C1, as the code has it.  The query of every catalogue request that
    [search_and_download_datasets] makes is built from the start date: the
    end date lands on [search_string], which [search_products] never reads,
    and so it changes nothing of the run. *)
Theorem search_query_uses_start_date net os_fault tiles start_date end_date end_date'
    datadir unzip max_retries verbose query_args st :
  search_and_download_datasets net os_fault tiles start_date end_date datadir
      unzip max_retries verbose query_args st =
    search_and_download_datasets net os_fault tiles start_date end_date' datadir
      unzip max_retries verbose query_args st ∧
  emits (searches_at start_date tiles) st
    (search_and_download_datasets net os_fault tiles start_date end_date datadir
       unzip max_retries verbose query_args st).2.
Proof.
  split; [reflexivity|].
  unfold search_and_download_datasets.
  apply keeps_for_in; [apply emits_refl | apply emits_trans |].
  intros tile Htile.
  apply keeps_bind; [apply emits_trans | |].
  - apply keeps_search_products; [apply emits_refl | apply emits_trans | |].
    + apply log_emits. intros url [= <-]. exists tile. split; [exact Htile | reflexivity].
    + intros line. apply log_emits. intros url [=].
  - intros p. apply download_products_emits.
    + intros ? ? ? [=].
    + intros ? ? ? [=].
    + intros ? [=].
    + intros _. repeat split; intros; intros ? [=].
Qed.

(** C1, as the claim has it, fails: with start date 2024-01-16 and end
    date 2024-01-17 the one request made asks for names that contain
    [MSIL1C_20240116], the start date, and is no query at the end date. *)
Lemma search_query_uses_start_date_counterexample :
  trace (search_and_download_datasets Sample.net_down Sample.os_ok base.tiles_test
           Sample.jan16 Sample.jan17 "../" false 3 true PyNone Sample.st0).2 =
    [Get "https://catalogue.dataspace.copernicus.eu/odata/v1/Products?$filter=contains(Name, 'MSIL1C_20240116') and contains(Name, '16QEJ')"] ∧
  ¬ emits (searches_at Sample.jan17 base.tiles_test) Sample.st0
      (search_and_download_datasets Sample.net_down Sample.os_ok base.tiles_test
         Sample.jan16 Sample.jan17 "../" false 3 true PyNone Sample.st0).2.
Proof.
  split; [reflexivity|].
  intros (evs & Htr & Hall).
  change (trace (search_and_download_datasets Sample.net_down Sample.os_ok
                   base.tiles_test Sample.jan16 Sample.jan17 "../" false 3 true
                   PyNone Sample.st0).2)
    with [Get (catalogue_url (name_token Sample.jan16) "16QEJ")] in Htr.
  simpl in Htr. subst evs.
  apply Forall_cons in Hall as [Hget _].
  destruct (Hget _ eq_refl) as (tile & _ & Hurl).
  vm_compute in Hurl. discriminate Hurl.
Qed.

(** C8.  When [search_products] raises on a tile, the loop ends there:
    the run of the whole list ends with that exception in the state the
    failed search left, whatever tiles come after; nothing is searched or
    downloaded for them. *)
Theorem search_failure_stops_the_loop net os_fault before tile after start_date
    end_date datadir unzip max_retries verbose query_args st st1 e st2 :
  search_and_download_datasets net os_fault before start_date end_date datadir
    unzip max_retries verbose query_args st = (Returns tt, st1) →
  search_products net tile start_date (PyDate end_date) "L1C" PyNone query_args st1 =
    (Raises e, st2) →
  search_and_download_datasets net os_fault (before ++ tile :: after) start_date
    end_date datadir unzip max_retries verbose query_args st = (Raises e, st2).
Proof.
  unfold search_and_download_datasets. intros Hbefore Hsearch.
  rewrite for_app, Hbefore. cbn [for_].
  rewrite bind_run, bind_run, Hsearch. reflexivity.
Qed.

Lemma search_failure_stops_the_loop_witness :
  search_and_download_datasets Sample.net_empty Sample.os_ok ("16QEJ" :: ["16QDH"])
    Sample.jan16 Sample.jan16 "../" false 3 true PyNone Sample.st0 =
  (Raises IndexError,
   logged (Get (catalogue_url (name_token Sample.jan16) "16QEJ")) Sample.st0).
Proof.
  apply (search_failure_stops_the_loop Sample.net_empty Sample.os_ok [] "16QEJ"
           ["16QDH"] Sample.jan16 Sample.jan16 "../" false 3 true PyNone
           Sample.st0 Sample.st0 IndexError); reflexivity.
Defined.

(** ** Writing the archive *)

Lemma append_self s t : s +:+ t = s → t = "".
Proof. induction s as [|a s IH]; simpl; [auto|]. intros [= H]. auto. Qed.

Lemma zip_path_not_tile_dir datadir tile name :
  zip_path datadir tile name ≠ tile_dir datadir tile.
Proof.
  unfold zip_path, tile_dir. intros H.
  apply (String.app_inj datadir), (String.app_inj "T") in H.
  apply append_self in H. discriminate H.
Qed.

Lemma path_exists_decide p st :
  bool_decide (p ∈ dirs st) || bool_decide (is_Some (files st !! p)) = true ↔
  path_exists p st.
Proof.
  unfold path_exists. rewrite orb_true_iff, !bool_decide_eq_true. reflexivity.
Qed.

Lemma download_products_reach net os_fault p datadir unzip max_retries verbose
    st bearer st1 r :
  get_access_token net base.Dataspace_username base.Dataspace_password st =
    (Returns (JStr bearer), st1) →
  net (trace st1) (download_request p bearer) = Some r →
  download_products net os_fault p datadir unzip max_retries verbose st =
  (make_tile_dir os_fault datadir (tiles p);;
   write_archive os_fault p datadir unzip r) (logged (download_request p bearer) st1).
Proof.
  intros Htok Hnet. rewrite download_products_split.
  erewrite bind_Returns by exact Htok.
  erewrite bind_Returns by reflexivity.
  erewrite bind_Returns by (apply http_Some, Hnet).
  reflexivity.
Qed.

Lemma get_access_token_same_fs net username password :
  keeps same_fs (get_access_token net username password).
Proof.
  apply keeps_get_access_token.
  - apply same_fs_refl.
  - apply same_fs_trans.
  - intros. apply log_same_fs.
Qed.

(** The directory step: nothing when the path exists, one [makedirs]
    call when it does not. *)
Lemma make_tile_dir_run os_fault datadir tile st :
  make_tile_dir os_fault datadir tile st =
  let d := tile_dir datadir tile in
  if bool_decide (d ∈ dirs st) || bool_decide (is_Some (files st !! d))
  then (Returns tt, st)
  else match os_fault (trace st) (Makedirs d) with
       | Some e => (Raises e, logged (Makedirs d) st)
       | None => (Returns tt,
                  {| trace := trace st ++ [Makedirs d];
                     dirs := {[d]} ∪ dirs st; files := files st |})
       end.
Proof.
  unfold make_tile_dir. rewrite bind_run. unfold os_path_exists. cbv zeta.
  destruct (_ || _) eqn:Hex; [reflexivity|].
  cbn [negb]. unfold os_makedirs, syscall.
  destruct (os_fault (trace st) _); [reflexivity|].
  rewrite bind_run. cbn [log dirs files]. rewrite Hex. reflexivity.
Qed.

Lemma file_write_run os_fault path chunk st acc :
  os_fault (trace st) (WriteChunk path chunk) = None →
  files st !! path = Some acc →
  file_write os_fault path chunk st =
  (Returns tt,
   {| trace := trace st ++ [WriteChunk path chunk]; dirs := dirs st;
      files := <[path := acc ++ chunk]> (files st) |}).
Proof.
  intros Hos Hacc. unfold file_write, syscall. rewrite Hos, bind_run.
  cbn [log trace dirs files]. rewrite Hacc. reflexivity.
Qed.

Lemma write_chunks_run os_fault path l :
  (∀ tr c, os_fault tr c = None) →
  ∀ st acc, files st !! path = Some acc →
  for_ l (write_chunk os_fault path) st =
  (Returns tt,
   {| trace := trace st ++ map (WriteChunk path) (nonempty_chunks l);
      dirs := dirs st;
      files := <[path := acc ++ concat (nonempty_chunks l)]> (files st) |}).
Proof.
  intros Hos. induction l as [|chunk l IH]; intros st acc Hacc.
  - simpl. rewrite !app_nil_r, insert_id by exact Hacc. destruct st; reflexivity.
  - cbn [for_]. destruct chunk as [|b chunk].
    + erewrite bind_Returns by reflexivity.
      rewrite (IH st acc Hacc). reflexivity.
    + erewrite bind_Returns
        by (apply (file_write_run os_fault path (b :: chunk) st acc); auto).
      erewrite IH by (cbn [files]; apply lookup_insert_eq).
      cbn [trace dirs files nonempty_chunks List.filter map concat].
      fold (nonempty_chunks l).
      rewrite insert_insert_eq, <- !app_assoc. reflexivity.
Qed.

Lemma open_wb_run os_fault path st :
  os_fault (trace st) (OpenWb path) = None →
  path ∉ dirs st →
  open_wb os_fault path st =
  (Returns tt,
   {| trace := trace st ++ [OpenWb path]; dirs := dirs st;
      files := <[path := []]> (files st) |}).
Proof.
  intros Hos Hdir. unfold open_wb, syscall. rewrite Hos, bind_run.
  cbn [log trace dirs files]. rewrite bool_decide_eq_false_2 by exact Hdir.
  reflexivity.
Qed.

(** The archive step when nothing is refused: the file is opened, the
    progress line printed, and each non-empty chunk written. *)
Lemma write_archive_run os_fault p datadir r st :
  (∀ tr c, os_fault tr c = None) →
  stream_error r = None →
  zip_path datadir (tiles p) (str_cell (names p)) ∉ dirs st →
  write_archive os_fault p datadir false r st =
  (Returns tt,
   let path := zip_path datadir (tiles p) (str_cell (names p)) in
   {| trace := trace st ++
        OpenWb path ::
        PrintLine ("Downloading " +:+ tiles p +:+ " " +:+ str_cell (origin_dates p)
               +:+ " " +:+ str_cell (ids p) +:+ "...") ::
        map (WriteChunk path) (nonempty_chunks (chunks r));
      dirs := dirs st;
      files := <[path := concat (nonempty_chunks (chunks r))]> (files st) |}).
Proof.
  intros Hos Hstream Hdir. unfold write_archive. cbn [negb]. cbv zeta.
  erewrite bind_Returns by (apply open_wb_run; auto).
  erewrite bind_Returns by reflexivity.
  unfold for_iter_content.
  erewrite bind_Returns.
  2:{ apply (write_chunks_run os_fault _ (chunks r) Hos _ []).
      cbn [log files]. apply lookup_insert_eq. }
  rewrite Hstream. unfold ret. cbn [log trace dirs files app].
  rewrite insert_insert_eq, <- !app_assoc. reflexivity.
Qed.

Lemma filter_no_file_output evs :
  Forall (λ c, is_file_output c = false) evs → List.filter is_file_output evs = [].
Proof.
  induction 1 as [|c evs Hc _ IH]; simpl; [reflexivity|]. rewrite Hc. exact IH.
Qed.

Lemma filter_writes path l :
  List.filter is_file_output (map (WriteChunk path) l) = map (WriteChunk path) l.
Proof. induction l as [|c l IH]; simpl; [reflexivity|]. rewrite IH. reflexivity. Qed.

Lemma length_nonempty_chunks l :
  length (concat (nonempty_chunks l)) = sum_list (length <$> nonempty_chunks l).
Proof. apply length_concat. Qed.

(** C6.  With a token from the identity service, a response to the download
    request whose stream ends without error, an operating system that
    refuses nothing and a target path that is not a directory,
    [download_products] with [unzip=False] returns, and it has written one
    file: at [<datadir>T<tile>/<name>.zip], holding the non-empty chunks of
    the stream in order, so that its length is the sum of their lengths.
    The other files are what they were, and the only calls that open or
    write a file are the opening of that path and one write per non-empty
    chunk. *)
Theorem download_products_writes_archive net os_fault p datadir max_retries verbose
    st bearer st1 r :
  get_access_token net base.Dataspace_username base.Dataspace_password st =
    (Returns (JStr bearer), st1) →
  net (trace st1) (download_request p bearer) = Some r →
  stream_error r = None →
  (∀ tr c, os_fault tr c = None) →
  zip_path datadir (tiles p) (str_cell (names p)) ∉ dirs st →
  let path := zip_path datadir (tiles p) (str_cell (names p)) in
  let written := nonempty_chunks (chunks r) in
  let res := download_products net os_fault p datadir false max_retries verbose st in
  res.1 = Returns tt ∧
  files res.2 = <[path := concat written]> (files st) ∧
  length (concat written) = sum_list (length <$> written) ∧
  ∃ evs, trace res.2 = trace st ++ evs ∧
         List.filter is_file_output evs = OpenWb path :: map (WriteChunk path) written.
Proof.
  intros Htok Hnet Hstream Hos Hdir path written res.
  pose proof (get_access_token_same_fs net base.Dataspace_username
                base.Dataspace_password st) as Hfs.
  pose proof (keeps_get_access_token (emits (λ c, is_file_output c = false))
                (emits_refl _) (emits_trans _) net
                base.Dataspace_username base.Dataspace_password
                (λ url data, log_emits _ (Post url data) eq_refl) st)
    as (evs1 & Htr1 & Hno1).
  rewrite Htok in Hfs, Htr1. destruct Hfs as [Hdirs Hfiles]. simpl in Hdirs, Hfiles, Htr1.
  apply filter_no_file_output in Hno1.
  subst res.
  rewrite (download_products_reach _ _ _ _ _ _ _ _ _ _ _ Htok Hnet).
  rewrite bind_run, make_tile_dir_run. cbv zeta. cbn [logged dirs files trace].
  rewrite Hos.
  destruct (_ || _).
  - rewrite write_archive_run
      by first [assumption | cbn [logged dirs]; rewrite Hdirs; exact Hdir].
    fold path written. cbn [logged fst snd files trace].
    split; [reflexivity|]. split; [congruence|].
    split; [apply length_nonempty_chunks|].
    eexists. split.
    + rewrite Htr1, <- !app_assoc. reflexivity.
    + rewrite List.filter_app, Hno1. cbn [app List.filter is_file_output download_request].
      rewrite filter_writes. reflexivity.
  - rewrite write_archive_run.
    2, 3: assumption.
    2:{ cbn [dirs]. rewrite Hdirs. apply not_elem_of_union. split; [|exact Hdir].
        apply not_elem_of_singleton, zip_path_not_tile_dir. }
    fold path written. cbn [fst snd files trace].
    split; [reflexivity|]. split; [congruence|].
    split; [apply length_nonempty_chunks|].
    eexists. split.
    + rewrite Htr1, <- !app_assoc. reflexivity.
    + rewrite List.filter_app, Hno1. cbn [app List.filter is_file_output download_request].
      rewrite filter_writes. reflexivity.
Qed.

Lemma download_products_writes_archive_witness :
  let res := download_products Sample.net_ok Sample.os_ok Sample.product "../" false
               5 true Sample.st0 in
  res.1 = Returns tt ∧
  files res.2 = <[ "../T16QEJ/S2A_MSIL1C_20240116_T16QEJ.zip" := [x50; x4b; x03] ]> ∅.
Proof.
  pose proof (download_products_writes_archive Sample.net_ok Sample.os_ok
                Sample.product "../" 5 true Sample.st0 "tok"
                (logged (Post token_url (token_form "" "")) Sample.st0)
                (Sample.reply 200 None [[x50; x4b]; []; [x03]])
                eq_refl eq_refl eq_refl (λ _ _, eq_refl)
                (not_elem_of_empty (C := gset string) _)) as (Hret & Hfiles & _).
  split; [exact Hret | exact Hfiles].
Defined.

(** ** The tile's directory *)

Lemma same_dirs_refl st : same_dirs st st.
Proof. reflexivity. Qed.

Lemma same_dirs_trans a b c : same_dirs a b → same_dirs b c → same_dirs a c.
Proof. unfold same_dirs. congruence. Qed.

Lemma log_same_dirs c : keeps same_dirs (log c).
Proof. intros st. reflexivity. Qed.

Lemma write_archive_same_dirs os_fault p datadir unzip r :
  keeps same_dirs (write_archive os_fault p datadir unzip r).
Proof.
  unfold write_archive. destruct unzip; simpl.
  - apply keeps_ret, same_dirs_refl.
  - apply keeps_bind; [apply same_dirs_trans| |].
    { apply keeps_syscall; [apply same_dirs_trans|apply log_same_dirs|].
      intros st. case_bool_decide; reflexivity. }
    intros _. apply keeps_bind; [apply same_dirs_trans|apply log_same_dirs|].
    intros _.
    apply keeps_for_iter_content; [apply same_dirs_refl|apply same_dirs_trans|].
    intros [|b chunk]; [apply keeps_ret, same_dirs_refl|].
    apply keeps_syscall; [apply same_dirs_trans|apply log_same_dirs|].
    intros st. reflexivity.
Qed.

(** C7.  Once [download_products] has its token and the response to its
    request, it calls [os.makedirs] on the tile's directory exactly when
    that path does not exist yet.  When the path exists, no directory call
    is made, the directories are what they were, and the call with
    [unzip=True] returns without error; when it does not exist and the
    operating system accepts the call, the directory is there afterwards. *)
Theorem download_products_makes_tile_dir net os_fault p datadir unzip max_retries
    verbose st bearer st1 r :
  get_access_token net base.Dataspace_username base.Dataspace_password st =
    (Returns (JStr bearer), st1) →
  net (trace st1) (download_request p bearer) = Some r →
  let d := tile_dir datadir (tiles p) in
  let res := download_products net os_fault p datadir unzip max_retries verbose st in
  ∃ evs, trace res.2 = trace st ++ evs ∧
    (Makedirs d ∈ evs ↔ ¬ path_exists d st) ∧
    (path_exists d st →
       dirs res.2 = dirs st ∧ (unzip = true → res.1 = Returns tt)) ∧
    (¬ path_exists d st →
       os_fault (trace st1 ++ [download_request p bearer]) (Makedirs d) = None →
       d ∈ dirs res.2 ∧ (unzip = true → res.1 = Returns tt)).
Proof.
  intros Htok Hnet d res.
  pose proof (get_access_token_same_fs net base.Dataspace_username
                base.Dataspace_password st) as Hfs.
  pose proof (keeps_get_access_token (emits (λ c, c ≠ Makedirs d))
                (emits_refl _) (emits_trans _) net
                base.Dataspace_username base.Dataspace_password
                (λ url data, log_emits (λ c, c ≠ Makedirs d) (Post url data)
                               ltac:(discriminate)) st)
    as (evs1 & Htr1 & Hno1).
  rewrite Htok in Hfs, Htr1. destruct Hfs as [Hdirs Hfiles].
  simpl in Hdirs, Hfiles, Htr1. rewrite Forall_forall in Hno1.
  assert (Htail : ∀ st2, ∃ evs3,
            trace (write_archive os_fault p datadir unzip r st2).2 = trace st2 ++ evs3 ∧
            (∀ c, c ∈ evs3 → c ≠ Makedirs d) ∧
            dirs (write_archive os_fault p datadir unzip r st2).2 = dirs st2 ∧
            (unzip = true → (write_archive os_fault p datadir unzip r st2).1 = Returns tt)).
  { intros st2.
    destruct (write_archive_emits (λ c, c ≠ Makedirs d) os_fault p datadir unzip r
                ltac:(discriminate) ltac:(discriminate) ltac:(discriminate) st2)
      as (evs3 & Htr3 & Hno3).
    exists evs3. rewrite Forall_forall in Hno3.
    repeat split; auto.
    - apply write_archive_same_dirs.
    - intros ->. reflexivity. }
  subst res. rewrite (download_products_reach _ _ _ _ _ _ _ _ _ _ _ Htok Hnet).
  rewrite bind_run, make_tile_dir_run. cbv zeta. fold d.
  destruct (bool_decide _ || bool_decide _) eqn:Hex.
  - assert (Hexists : path_exists d st).
    { apply path_exists_decide in Hex. unfold path_exists in *.
      cbn [logged dirs files] in Hex. rewrite Hdirs, Hfiles in Hex. exact Hex. }
    destruct (Htail (logged (download_request p bearer) st1))
      as (evs3 & Htr3 & Hno3 & Hd3 & Hret3).
    exists (evs1 ++ [download_request p bearer] ++ evs3). split; [|split; [|split]].
    + rewrite Htr3. cbn [logged trace]. rewrite Htr1, <- !app_assoc. reflexivity.
    + split; [|tauto]. intros Hin. exfalso.
      apply elem_of_app in Hin as [Hin|Hin]; [exact (Hno1 _ Hin eq_refl)|].
      apply elem_of_cons in Hin as [Hin|Hin]; [discriminate Hin|].
      exact (Hno3 _ Hin eq_refl).
    + intros _. split; [|exact Hret3]. rewrite Hd3. exact Hdirs.
    + tauto.
  - assert (Hfresh : ¬ path_exists d st).
    { intros Hexists. apply not_true_iff_false in Hex. apply Hex.
      apply path_exists_decide. unfold path_exists in *.
      cbn [logged dirs files]. rewrite Hdirs, Hfiles. exact Hexists. }
    cbn [logged trace].
    destruct (os_fault (trace st1 ++ [download_request p bearer]) (Makedirs d))
      as [e|] eqn:Hos.
    + exists (evs1 ++ [download_request p bearer; Makedirs d]).
      split; [|split; [|split]].
      * cbn [snd logged trace]. rewrite Htr1, <- !app_assoc. reflexivity.
      * split; [tauto|]. intros _. apply elem_of_app. right.
        apply elem_of_cons. right. apply elem_of_cons. left. reflexivity.
      * tauto.
      * intros _ [=].
    + match goal with
      | |- context [write_archive _ _ _ _ _ ?s] =>
          destruct (Htail s) as (evs3 & Htr3 & Hno3 & Hd3 & Hret3)
      end.
      exists (evs1 ++ [download_request p bearer; Makedirs d] ++ evs3).
      split; [|split; [|split]].
      * rewrite Htr3. cbn [trace]. rewrite Htr1, <- !app_assoc. reflexivity.
      * split; [tauto|]. intros _. apply elem_of_app. right.
        apply elem_of_cons. right. apply elem_of_cons. left. reflexivity.
      * tauto.
      * intros _ _. split; [|exact Hret3]. rewrite Hd3. cbn [dirs].
        apply elem_of_union. left. apply elem_of_singleton. reflexivity.
Qed.

Lemma download_products_makes_tile_dir_witness :
  "../T16QEJ" ∈ dirs (download_products Sample.net_ok Sample.os_ok Sample.product
                        "../" true 5 true Sample.st0).2.
Proof.
  destruct (download_products_makes_tile_dir Sample.net_ok Sample.os_ok
              Sample.product "../" true 5 true Sample.st0 "tok"
              (logged (Post token_url (token_form "" "")) Sample.st0)
              (Sample.reply 200 None [[x50; x4b]; []; [x03]])
              eq_refl eq_refl) as (evs & _ & _ & _ & Hnew).
  apply Hnew; [|reflexivity].
  intros [Hdir|Hfile].
  - exact (not_elem_of_empty (C := gset string) _ Hdir).
  - destruct Hfile as [content Hfile]. discriminate Hfile.
Defined.

(** ** Sample runs *)

Example strftime_Ymd_jan16 : strftime_Ymd Sample.jan16 = "20240116".
Proof. reflexivity. Qed.

(** A whole run over one tile: the calls, in order. *)
Example one_tile_run :
  trace (search_and_download_datasets Sample.net_ok Sample.os_ok ["16QEJ"]
           Sample.jan16 Sample.jan16 "../" false 3 true PyNone Sample.st0).2 =
  [Get (catalogue_url "MSIL1C_20240116" "16QEJ");
   PrintLine "<built-in function id>";
   PrintLine "S2A_MSIL1C_20240116_T16QEJ";
   Post token_url (token_form "" "");
   SessionGet (zipper_url "abc") [("Authorization", "Bearer tok")];
   Makedirs "../T16QEJ";
   OpenWb "../T16QEJ/S2A_MSIL1C_20240116_T16QEJ.zip";
   PrintLine "Downloading 16QEJ 2024-01-16T00:00:00Z abc...";
   WriteChunk "../T16QEJ/S2A_MSIL1C_20240116_T16QEJ.zip" [x50; x4b];
   WriteChunk "../T16QEJ/S2A_MSIL1C_20240116_T16QEJ.zip" [x03]].
Proof. reflexivity. Qed.

(** * Further properties *)

(** ** Steps that leave the state alone *)

Lemma unchanged_refl (st : state) : st = st.
Proof. reflexivity. Qed.

Lemma unchanged_trans (a b c : state) : b = a → c = b → c = a.
Proof. congruence. Qed.

Lemma bind_pure {A B} (c : M A) (k : A → M B) st :
  (c st).2 = st →
  (c ≫= k) st = match (c st).1 with
                | Returns a => k a st
                | Raises e => (Raises e, st)
                | Unmodelled => (Unmodelled, st)
                end.
Proof.
  intros H. rewrite bind_run. destruct (c st) as [[a|e|] st']; simpl in *; subst; reflexivity.
Qed.

Lemma getitem_pure j key st : (getitem j key st).2 = st.
Proof.
  apply (keeps_getitem (λ a b, b = a) unchanged_refl).
Qed.

Lemma DataFrame_from_dict_pure v st : (DataFrame_from_dict v st).2 = st.
Proof.
  apply (keeps_DataFrame_from_dict (λ a b, b = a) unchanged_refl).
Qed.

Lemma iloc0_pure df st : (iloc0 df st).2 = st.
Proof.
  apply (keeps_iloc0 (λ a b, b = a) unchanged_refl).
Qed.

Lemma Series_getitem_pure s key st : (Series_getitem s key st).2 = st.
Proof.
  apply (keeps_Series_getitem (λ a b, b = a) unchanged_refl).
Qed.

Lemma response_json_pure r st : (response_json r st).2 = st.
Proof.
  apply (keeps_response_json (λ a b, b = a) unchanged_refl).
Qed.

(** ** More on search *)

Lemma assoc_None_fst k m : assoc k m = None → k ∉ map fst m.
Proof.
  induction m as [|[k' v'] m IH]; simpl.
  - intros _ H. inversion H.
  - destruct (String.eqb_spec k k') as [->|Hne]; [discriminate|].
    intros Hm Hin. apply elem_of_cons in Hin as [Heq|Hin]; [congruence|].
    exact (IH Hm Hin).
Qed.

Lemma no_column k (rs : list (list (string * json))) :
  (∀ row, row ∈ rs → assoc k row = None) →
  k ∉ remove_dups (concat (map (map fst) rs)).
Proof.
  intros Hrows Hin. rewrite elem_of_remove_dups in Hin.
  induction rs as [|row rs IH]; simpl in Hin.
  - inversion Hin.
  - apply elem_of_app in Hin as [Hin|Hin].
    + apply (assoc_None_fst k row); [apply Hrows; left | exact Hin].
    + apply IH; [|exact Hin]. intros row' Hrow'. apply Hrows. right. exact Hrow'.
Qed.

Lemma some_column k (rs : list (list (string * json))) row :
  row ∈ rs → is_Some (assoc k row) →
  k ∈ remove_dups (concat (map (map fst) rs)).
Proof.
  intros Hrow [v Hv]. rewrite elem_of_remove_dups.
  induction Hrow as [row rs|row row' rs Hrow IH]; simpl; apply elem_of_app.
  - left. eapply assoc_fst, Hv.
  - right. exact (IH Hv).
Qed.

Section MoreSearch.
Variable net : list call → call → option response.

(** X1.  When the catalogue request does not get through,
    [search_products] ends with the transport error of [requests.get]:
    there is no handler.  The request is the only call made. *)
Theorem search_products_transport_failure tile d ss sat qa st :
  net (trace st) (search_request tile d) = None →
  search_products net tile d ss "L1C" sat qa st =
  (Raises ConnectionError, logged (search_request tile d) st).
Proof.
  intros Hnet. unfold search_products.
  erewrite bind_Returns by reflexivity.
  erewrite bind_Raises by (apply http_None, Hnet).
  reflexivity.
Qed.

(** X2.  When the catalogue's answer is not JSON, whatever its status,
    [search_products] ends with the decoding error of [json()]. *)
Theorem search_products_not_json tile d ss sat qa st r :
  net (trace st) (search_request tile d) = Some r →
  json_body r = None →
  search_products net tile d ss "L1C" sat qa st =
  (Raises JSONDecodeError, logged (search_request tile d) st).
Proof.
  intros Hnet Hbody. unfold search_products.
  erewrite bind_Returns by reflexivity.
  erewrite bind_Returns by (apply http_Some, Hnet).
  erewrite bind_Raises by (unfold response_json; rewrite Hbody; reflexivity).
  reflexivity.
Qed.

(** X3.  When the catalogue answers with a JSON object that has no
    [value] member (an error document), [search_products] ends with
    [KeyError] on ["value"]: the status of the response is never looked
    at. *)
Theorem search_products_no_value tile d ss sat qa st r m :
  net (trace st) (search_request tile d) = Some r →
  json_body r = Some (JObj m) →
  assoc "value" m = None →
  search_products net tile d ss "L1C" sat qa st =
  (Raises (KeyError "value"), logged (search_request tile d) st).
Proof.
  intros Hnet Hbody Hval. unfold search_products.
  erewrite bind_Returns by reflexivity.
  erewrite bind_Returns by (apply http_Some, Hnet).
  erewrite bind_Returns by (unfold response_json; rewrite Hbody; reflexivity).
  erewrite bind_Raises by (unfold getitem; rewrite Hval; reflexivity).
  reflexivity.
Qed.

(** X4.  When the matches are objects of which none has an [Id], the
    frame has no such column and [search_products] ends with [KeyError]
    on ["Id"]. *)
Theorem search_products_no_id_column tile d ss sat qa st r m items first rs :
  net (trace st) (search_request tile d) = Some r →
  json_body r = Some (JObj m) →
  assoc "value" m = Some (JArr items) →
  records items = Some (first :: rs) →
  (∀ row, row ∈ first :: rs → assoc "Id" row = None) →
  search_products net tile d ss "L1C" sat qa st =
  (Raises (KeyError "Id"), logged (search_request tile d) st).
Proof.
  intros Hnet Hbody Hval Hrs Hno.
  rewrite (search_products_value _ _ _ _ _ _ _ _ _ _ Hnet Hbody Hval).
  erewrite bind_Returns by (unfold DataFrame_from_dict; rewrite Hrs; reflexivity).
  erewrite bind_Returns by reflexivity.
  erewrite bind_Raises; [reflexivity|].
  unfold Series_getitem. cbn [index columns].
  rewrite bool_decide_eq_false_2 by (apply no_column, Hno).
  reflexivity.
Qed.

(** X5.  When the first match has no [Id] but a later one has, the first
    row's cell is NaN: [search_products] returns a descriptor whose id is
    NaN.  It neither raises nor takes the id of the later match. *)
Theorem search_products_nan_id tile d ss sat qa st r m first others rs row n o :
  net (trace st) (search_request tile d) = Some r →
  json_body r = Some (JObj m) →
  assoc "value" m = Some (JArr (JObj first :: others)) →
  records others = Some rs →
  assoc "Id" first = None →
  row ∈ rs → is_Some (assoc "Id" row) →
  assoc "Name" first = Some (JStr n) →
  assoc "OriginDate" first = Some (JStr o) →
  search_products net tile d ss "L1C" sat qa st =
  (Returns {| ids := CNaN; names := CStr n; tiles := tile; origin_dates := CStr o |},
   logged (PrintLine n) (logged (PrintLine "<built-in function id>")
     (logged (search_request tile d) st))).
Proof.
  intros Hnet Hbody Hval Hrs Hid Hrow Hlater Hn Ho.
  rewrite (search_products_value _ _ _ _ _ _ _ _ _ _ Hnet Hbody Hval).
  erewrite bind_Returns
    by (unfold DataFrame_from_dict; cbn [records]; rewrite Hrs; reflexivity).
  erewrite bind_Returns by reflexivity.
  assert (Hcol : ∀ k, is_Some (assoc k first) ∨ k = "Id" →
            k ∈ remove_dups (concat (map (map fst) (first :: rs)))).
  { intros k [Hk| ->].
    - apply (some_column k _ first); [left | exact Hk].
    - apply (some_column "Id" _ row); [right; exact Hrow | exact Hlater]. }
  erewrite bind_Returns.
  2:{ unfold Series_getitem. cbn [index columns values rows].
      rewrite bool_decide_eq_true_2 by (apply Hcol; right; reflexivity).
      rewrite Hid. reflexivity. }
  erewrite bind_Returns.
  2:{ unfold Series_getitem. cbn [index columns values rows].
      rewrite bool_decide_eq_true_2 by (apply Hcol; left; rewrite Hn; eauto).
      rewrite Hn. reflexivity. }
  erewrite bind_Returns.
  2:{ unfold Series_getitem. cbn [index columns values rows].
      rewrite bool_decide_eq_true_2 by (apply Hcol; left; rewrite Ho; eauto).
      rewrite Ho. reflexivity. }
  reflexivity.
Qed.
End MoreSearch.

Lemma search_products_transport_failure_witness :
  search_products Sample.net_down "16QEJ" Sample.jan16 PyNone "L1C" PyNone PyNone
    Sample.st0 =
  (Raises ConnectionError, logged (search_request "16QEJ" Sample.jan16) Sample.st0).
Proof.
  apply (search_products_transport_failure Sample.net_down "16QEJ" Sample.jan16
           PyNone PyNone PyNone Sample.st0).
  reflexivity.
Defined.

Lemma search_products_not_json_witness :
  search_products Sample.net_html "16QEJ" Sample.jan16 PyNone "L1C" PyNone PyNone
    Sample.st0 =
  (Raises JSONDecodeError, logged (search_request "16QEJ" Sample.jan16) Sample.st0).
Proof.
  apply (search_products_not_json Sample.net_html "16QEJ" Sample.jan16
           PyNone PyNone PyNone Sample.st0 (Sample.reply 200 None []));
    reflexivity.
Defined.

Lemma search_products_no_value_witness :
  search_products Sample.net_no_value "16QEJ" Sample.jan16 PyNone "L1C" PyNone PyNone
    Sample.st0 =
  (Raises (KeyError "value"), logged (search_request "16QEJ" Sample.jan16) Sample.st0).
Proof.
  apply (search_products_no_value Sample.net_no_value "16QEJ" Sample.jan16
           PyNone PyNone PyNone Sample.st0
           (Sample.reply 200 (Some (JObj [("detail", JStr "Invalid filter")])) [])
           [("detail", JStr "Invalid filter")]);
    reflexivity.
Defined.

Lemma search_products_no_id_column_witness :
  search_products Sample.net_no_id "16QEJ" Sample.jan16 PyNone "L1C" PyNone PyNone
    Sample.st0 =
  (Raises (KeyError "Id"), logged (search_request "16QEJ" Sample.jan16) Sample.st0).
Proof.
  apply (search_products_no_id_column Sample.net_no_id "16QEJ" Sample.jan16
           PyNone PyNone PyNone Sample.st0
           (Sample.reply 200
              (Some (JObj [("value", JArr [JObj Sample.entry_no_id])])) [])
           [("value", JArr [JObj Sample.entry_no_id])]
           [JObj Sample.entry_no_id] Sample.entry_no_id []);
    try reflexivity.
  intros row Hrow. apply list_elem_of_singleton in Hrow. rewrite Hrow. reflexivity.
Defined.

Lemma search_products_nan_id_witness :
  search_products Sample.net_late_id "16QEJ" Sample.jan16 PyNone "L1C" PyNone PyNone
    Sample.st0 =
  (Returns {| ids := CNaN; names := CStr "S2A_MSIL1C_20240116_T16QEJ";
              tiles := "16QEJ"; origin_dates := CStr "2024-01-16T00:00:00Z" |},
   logged (PrintLine "S2A_MSIL1C_20240116_T16QEJ")
     (logged (PrintLine "<built-in function id>")
        (logged (search_request "16QEJ" Sample.jan16) Sample.st0))).
Proof.
  apply (search_products_nan_id Sample.net_late_id "16QEJ" Sample.jan16
           PyNone PyNone PyNone Sample.st0
           (Sample.reply 200
              (Some (JObj [("value", JArr [JObj Sample.entry_no_id; Sample.entry2])])) [])
           [("value", JArr [JObj Sample.entry_no_id; Sample.entry2])]
           Sample.entry_no_id [Sample.entry2]
           [[("Id", JStr "def"); ("Name", JStr "S2B_MSIL1C_20240116_T16QEJ");
             ("OriginDate", JStr "2024-01-16T01:00:00Z")]]
           [("Id", JStr "def"); ("Name", JStr "S2B_MSIL1C_20240116_T16QEJ");
            ("OriginDate", JStr "2024-01-16T01:00:00Z")]
           "S2A_MSIL1C_20240116_T16QEJ" "2024-01-16T00:00:00Z");
    try reflexivity.
  - left.
  - exists (JStr "def"). reflexivity.
Defined.

(** How a call to [search_products] can end: with a descriptor, after the
    request and the two prints; or without one, after the request at
    most. *)
Lemma search_products_cases net tile d ss product_type sat qa st :
  (∃ p, search_products net tile d ss product_type sat qa st =
          (Returns p,
           logged (PrintLine (str_cell (names p)))
             (logged (PrintLine "<built-in function id>")
                (logged (search_request tile d) st))) ∧
        tiles p = tile) ∨
  ((∀ p, (search_products net tile d ss product_type sat qa st).1 ≠ Returns p) ∧
   ((search_products net tile d ss product_type sat qa st).2 = st ∨
    (search_products net tile d ss product_type sat qa st).2 =
      logged (search_request tile d) st)).
Proof.
  unfold search_products.
  destruct (String.eqb product_type "L1C").
  2:{ right. split; [intros p; discriminate | left; reflexivity]. }
  erewrite bind_Returns by reflexivity.
  rewrite bind_run. unfold requests_get, http.
  change (Get (catalogue_url ("MSIL1C" +:+ "_" +:+ strftime_Ymd d) tile))
    with (search_request tile d).
  destruct (net (trace st) (search_request tile d)) as [r|].
  2:{ right. split; [intros p; discriminate | right; reflexivity]. }
  change ((log (search_request tile d);; ret r) st)
    with (Returns r, logged (search_request tile d) st).
  cbv iota beta.
  rewrite bind_pure by apply response_json_pure.
  destruct (response_json r _).1 as [j|e|];
    [|right; split; [intros p; discriminate | right; reflexivity]..].
  rewrite bind_pure by apply getitem_pure.
  destruct (getitem j _ _).1 as [v|e|];
    [|right; split; [intros p; discriminate | right; reflexivity]..].
  rewrite bind_pure by apply DataFrame_from_dict_pure.
  destruct (DataFrame_from_dict v _).1 as [df|e|];
    [|right; split; [intros p; discriminate | right; reflexivity]..].
  rewrite bind_pure by apply iloc0_pure.
  destruct (iloc0 df _).1 as [row|e|];
    [|right; split; [intros p; discriminate | right; reflexivity]..].
  rewrite bind_pure by apply Series_getitem_pure.
  destruct (Series_getitem row "Id" _).1 as [id_ds|e|];
    [|right; split; [intros p; discriminate | right; reflexivity]..].
  rewrite bind_pure by apply Series_getitem_pure.
  destruct (Series_getitem row "Name" _).1 as [name|e|];
    [|right; split; [intros p; discriminate | right; reflexivity]..].
  rewrite bind_pure by apply Series_getitem_pure.
  destruct (Series_getitem row "OriginDate" _).1 as [origin_date|e|];
    [|right; split; [intros p; discriminate | right; reflexivity]..].
  left.
  exists {| ids := id_ds; names := name; tiles := tile; origin_dates := origin_date |}.
  split; reflexivity.
Qed.


(** ** More on the access token *)

(** Whatever the identity service answers, the state after
    [get_access_token] is the state before with the token request on
    record. *)
Lemma get_access_token_state net username password st :
  (get_access_token net username password st).2 =
  logged (token_request username password) st.
Proof.
  rewrite get_access_token_run. cbv zeta. fold (token_request username password).
  destruct (net (trace st) _) as [r|]; [|reflexivity].
  case_bool_decide.
  - destruct (json_body r); reflexivity.
  - rewrite bind_pure by apply response_json_pure.
    destruct (response_json r _).1; try reflexivity.
    apply getitem_pure.
Qed.

Section MoreToken.
Variable net : list call → call → option response.

(** X7.  When the identity service answers with a status that is not
    4xx/5xx and a JSON object that has an [access_token], the call returns
    that member as it is, after the one token request. *)
Theorem get_access_token_success username password st r m token :
  net (trace st) (token_request username password) = Some r →
  ¬ 400 ≤ status_code r < 600 →
  json_body r = Some (JObj m) →
  assoc "access_token" m = Some token →
  get_access_token net username password st =
  (Returns token, logged (token_request username password) st).
Proof.
  intros Hnet Hstatus Hbody Htok. rewrite get_access_token_run. cbv zeta.
  unfold token_request in Hnet. rewrite Hnet.
  rewrite bool_decide_eq_false_2 by exact Hstatus.
  erewrite bind_Returns by (unfold response_json; rewrite Hbody; reflexivity).
  unfold getitem. rewrite Htok. reflexivity.
Qed.

(** X8.  When the answer passes the status check but its JSON object has
    no [access_token], the call ends with [KeyError] on that key: the
    failure is not reported as a failed token creation. *)
Theorem get_access_token_no_token username password st r m :
  net (trace st) (token_request username password) = Some r →
  ¬ 400 ≤ status_code r < 600 →
  json_body r = Some (JObj m) →
  assoc "access_token" m = None →
  get_access_token net username password st =
  (Raises (KeyError "access_token"), logged (token_request username password) st).
Proof.
  intros Hnet Hstatus Hbody Htok. rewrite get_access_token_run. cbv zeta.
  unfold token_request in Hnet. rewrite Hnet.
  rewrite bool_decide_eq_false_2 by exact Hstatus.
  erewrite bind_Returns by (unfold response_json; rewrite Hbody; reflexivity).
  unfold getitem. rewrite Htok. reflexivity.
Qed.

(** X9.  Every call to [get_access_token], however it ends, makes exactly
    one call to the outside: the POST to the token URL with the client id,
    the user name, the password and the grant type.  It never retries and
    never touches the file system. *)
Theorem get_access_token_one_request username password st :
  let res := get_access_token net username password st in
  trace res.2 =
    trace st ++ [Post token_url
                   [("client_id", "cdse-public"); ("username", username);
                    ("password", password); ("grant_type", "password")]] ∧
  dirs res.2 = dirs st ∧ files res.2 = files st.
Proof.
  intros res. subst res. rewrite get_access_token_state. repeat split.
Qed.
End MoreToken.

Lemma get_access_token_success_witness :
  get_access_token Sample.net_ok "" "" Sample.st0 =
  (Returns (JStr "tok"), logged (token_request "" "") Sample.st0).
Proof.
  apply (get_access_token_success Sample.net_ok "" "" Sample.st0
           (Sample.reply 200 (Some (JObj [("access_token", JStr "tok")])) [])
           [("access_token", JStr "tok")] (JStr "tok")); try reflexivity.
  simpl. lia.
Defined.

Lemma get_access_token_no_token_witness :
  get_access_token Sample.net_no_token "" "" Sample.st0 =
  (Raises (KeyError "access_token"), logged (token_request "" "") Sample.st0).
Proof.
  apply (get_access_token_no_token Sample.net_no_token "" "" Sample.st0
           (Sample.reply 200 (Some (JObj [("token_type", JStr "Bearer")])) [])
           [("token_type", JStr "Bearer")]); try reflexivity.
  simpl. lia.
Defined.

(** ** More on download *)

Section MoreDownload.
Variable net : list call → call → option response.
Variable os_fault : list call → call → option exn.

(** X10.  When [get_access_token] raises, [download_products] ends with
    the same exception and has made the token request only: no download
    request, no directory, no file. *)
Theorem download_products_auth_failure p datadir unzip max_retries verbose st e st1 :
  get_access_token net base.Dataspace_username base.Dataspace_password st =
    (Raises e, st1) →
  download_products net os_fault p datadir unzip max_retries verbose st =
  (Raises e,
   logged (token_request base.Dataspace_username base.Dataspace_password) st).
Proof.
  intros Htok. rewrite download_products_split.
  erewrite bind_Raises by exact Htok.
  rewrite <- get_access_token_state with (net := net), Htok. reflexivity.
Qed.

(** X11.  When the token is there but the download request does not get
    through, [download_products] ends with the transport error; the tile's
    directory has not been made and no file opened: the calls are the
    token request and the download request. *)
Theorem download_products_transport_failure p datadir unzip max_retries verbose
    st bearer st1 :
  get_access_token net base.Dataspace_username base.Dataspace_password st =
    (Returns (JStr bearer), st1) →
  net (trace st1) (download_request p bearer) = None →
  download_products net os_fault p datadir unzip max_retries verbose st =
  (Raises ConnectionError,
   logged (download_request p bearer)
     (logged (token_request base.Dataspace_username base.Dataspace_password) st)).
Proof.
  intros Htok Hnet. rewrite download_products_split.
  erewrite bind_Returns by exact Htok.
  erewrite bind_Returns by reflexivity.
  erewrite bind_Raises by (apply http_None, Hnet).
  rewrite <- get_access_token_state with (net := net), Htok. reflexivity.
Qed.
End MoreDownload.

Lemma download_products_auth_failure_witness :
  download_products Sample.net_401 Sample.os_ok Sample.product "../" false 5 true
    Sample.st0 =
  (Raises (Exception_ token_failed Sample.invalid_grant),
   logged (token_request "" "") Sample.st0).
Proof.
  apply (download_products_auth_failure Sample.net_401 Sample.os_ok Sample.product
           "../" false 5 true Sample.st0
           (Exception_ token_failed Sample.invalid_grant)
           (logged (token_request "" "") Sample.st0)).
  reflexivity.
Defined.

Lemma download_products_transport_failure_witness :
  download_products Sample.net_no_download Sample.os_ok Sample.product "../" false 5
    true Sample.st0 =
  (Raises ConnectionError,
   logged (download_request Sample.product "tok")
     (logged (token_request "" "") Sample.st0)).
Proof.
  apply (download_products_transport_failure Sample.net_no_download Sample.os_ok
           Sample.product "../" false 5 true Sample.st0 "tok"
           (logged (token_request "" "") Sample.st0)); reflexivity.
Defined.

(** The archive step when nothing is refused, whether or not the stream
    ends well: every non-empty chunk that arrived is in the file. *)
Lemma write_archive_stream os_fault p datadir r st :
  (∀ tr c, os_fault tr c = None) →
  zip_path datadir (tiles p) (str_cell (names p)) ∉ dirs st →
  write_archive os_fault p datadir false r st =
  (match stream_error r with
   | Some e => Raises e
   | None => Returns tt
   end,
   let path := zip_path datadir (tiles p) (str_cell (names p)) in
   {| trace := trace st ++
        OpenWb path ::
        PrintLine ("Downloading " +:+ tiles p +:+ " " +:+ str_cell (origin_dates p)
                   +:+ " " +:+ str_cell (ids p) +:+ "...") ::
        map (WriteChunk path) (nonempty_chunks (chunks r));
      dirs := dirs st;
      files := <[path := concat (nonempty_chunks (chunks r))]> (files st) |}).
Proof.
  intros Hos Hdir. unfold write_archive. cbn [negb]. cbv zeta.
  erewrite bind_Returns by (apply open_wb_run; auto).
  erewrite bind_Returns by reflexivity.
  unfold for_iter_content.
  erewrite bind_Returns.
  2:{ apply (write_chunks_run os_fault _ (chunks r) Hos _ []).
      cbn [log files]. apply lookup_insert_eq. }
  unfold ret, raise. cbn [log trace dirs files app].
  rewrite insert_insert_eq, <- !app_assoc.
  destruct (stream_error r); reflexivity.
Qed.

Lemma download_products_stream net os_fault p datadir max_retries verbose
    st bearer st1 r :
  get_access_token net base.Dataspace_username base.Dataspace_password st =
    (Returns (JStr bearer), st1) →
  net (trace st1) (download_request p bearer) = Some r →
  (∀ tr c, os_fault tr c = None) →
  zip_path datadir (tiles p) (str_cell (names p)) ∉ dirs st →
  (download_products net os_fault p datadir false max_retries verbose st).1 =
    match stream_error r with
    | Some e => Raises e
    | None => Returns tt
    end ∧
  files (download_products net os_fault p datadir false max_retries verbose st).2 =
    <[zip_path datadir (tiles p) (str_cell (names p)) :=
        concat (nonempty_chunks (chunks r))]> (files st).
Proof.
  intros Htok Hnet Hos Hdir.
  pose proof (get_access_token_same_fs net base.Dataspace_username
                base.Dataspace_password st) as Hfs.
  rewrite Htok in Hfs. destruct Hfs as [Hdirs Hfiles]. simpl in Hdirs, Hfiles.
  rewrite (download_products_reach _ _ _ _ _ _ _ _ _ _ _ Htok Hnet).
  rewrite bind_run, make_tile_dir_run. cbv zeta. cbn [logged dirs files trace].
  rewrite Hos.
  destruct (_ || _).
  - rewrite write_archive_stream
      by first [assumption | cbn [logged dirs]; rewrite Hdirs; exact Hdir].
    cbn [logged fst snd files]. split; [reflexivity | congruence].
  - rewrite write_archive_stream.
    2: assumption.
    2:{ cbn [dirs]. rewrite Hdirs. apply not_elem_of_union. split; [|exact Hdir].
        apply not_elem_of_singleton, zip_path_not_tile_dir. }
    cbn [fst snd files]. split; [reflexivity | congruence].
Qed.

(** X12.  When the stream of the download breaks off with an error,
    [download_products] ends with that error and the file stays behind:
    it holds the non-empty chunks that arrived before the break.  Nothing
    removes the partial archive. *)
Theorem download_products_partial_file net os_fault p datadir max_retries verbose
    st bearer st1 r e :
  get_access_token net base.Dataspace_username base.Dataspace_password st =
    (Returns (JStr bearer), st1) →
  net (trace st1) (download_request p bearer) = Some r →
  stream_error r = Some e →
  (∀ tr c, os_fault tr c = None) →
  zip_path datadir (tiles p) (str_cell (names p)) ∉ dirs st →
  let res := download_products net os_fault p datadir false max_retries verbose st in
  res.1 = Raises e ∧
  files res.2 !! zip_path datadir (tiles p) (str_cell (names p)) =
    Some (concat (nonempty_chunks (chunks r))).
Proof.
  intros Htok Hnet Hstream Hos Hdir res. subst res.
  destruct (download_products_stream net os_fault p datadir max_retries verbose
              st bearer st1 r Htok Hnet Hos Hdir) as [Hout Hfiles].
  rewrite Hstream in Hout. split; [exact Hout|].
  rewrite Hfiles. apply lookup_insert_eq.
Qed.

Lemma download_products_partial_file_witness :
  let res := download_products Sample.net_cut Sample.os_ok Sample.product "../" false
               5 true Sample.st0 in
  res.1 = Raises ChunkedEncodingError ∧
  files res.2 !! "../T16QEJ/S2A_MSIL1C_20240116_T16QEJ.zip" = Some [x50; x4b].
Proof.
  apply (download_products_partial_file Sample.net_cut Sample.os_ok Sample.product
           "../" 5 true Sample.st0 "tok"
           (logged (token_request "" "") Sample.st0)
           {| status_code := 200; json_body := None; chunks := [[x50; x4b]];
              stream_error := Some ChunkedEncodingError |}
           ChunkedEncodingError eq_refl eq_refl eq_refl (λ _ _, eq_refl)
           (not_elem_of_empty (C := gset string) _)).
Defined.

(** ** What a download can touch *)










(** ** Counting requests *)

Lemma count_calls_app kind e1 e2 :
  count_calls kind (e1 ++ e2) = count_calls kind e1 + count_calls kind e2.
Proof. unfold count_calls. rewrite List.filter_app, length_app. reflexivity. Qed.

Lemma count_calls_none kind evs :
  Forall (λ c, kind c = false) evs → count_calls kind evs = 0.
Proof.
  unfold count_calls. induction 1 as [|c evs Hc _ IH]; simpl; [reflexivity|].
  rewrite Hc. exact IH.
Qed.

(** After the token, [download_products] makes neither a token request nor
    a catalogue request. *)
Lemma after_token_emits (P : call → Prop) net os_fault p datadir unzip tok :
  (∀ url headers, P (SessionGet url headers)) →
  P (Makedirs (tile_dir datadir (tiles p))) →
  (∀ path, P (OpenWb path)) → (∀ line, P (PrintLine line)) →
  (∀ path chunk, P (WriteChunk path chunk)) →
  keeps (emits P)
    (bearer ← str_json tok;
     response ← http net (download_request p bearer);
     make_tile_dir os_fault datadir (tiles p);;
     write_archive os_fault p datadir unzip response).
Proof.
  intros Hsget Hmk Ho Hp Hw.
  apply keeps_bind; [apply emits_trans | apply keeps_str_json, emits_refl |].
  intros bearer.
  apply keeps_bind; [apply emits_trans | apply keeps_http, log_emits, Hsget |].
  intros r. apply after_request_emits; auto.
Qed.

Lemma download_products_after_token net os_fault p datadir unzip max_retries verbose st :
  ∃ evs,
    trace (download_products net os_fault p datadir unzip max_retries verbose st).2 =
      trace st ++
      token_request base.Dataspace_username base.Dataspace_password :: evs ∧
    Forall (λ c, is_Post c = false ∧ is_Get c = false) evs.
Proof.
  rewrite download_products_split, bind_run.
  pose proof (get_access_token_state net base.Dataspace_username
                base.Dataspace_password st) as Hst.
  destruct (get_access_token _ _ _ st) as [[tok|e|] st1]; simpl in Hst; subst st1.
  - destruct (after_token_emits (λ c, is_Post c = false ∧ is_Get c = false)
                net os_fault p datadir unzip tok
                ltac:(split; reflexivity) ltac:(split; reflexivity)
                ltac:(split; reflexivity) ltac:(split; reflexivity)
                ltac:(split; reflexivity)
                (logged (token_request base.Dataspace_username
                           base.Dataspace_password) st))
      as (evs & Htr & Hall).
    exists evs. split; [|exact Hall].
    etrans; [exact Htr|]. cbn [logged trace]. rewrite <- app_assoc. reflexivity.
  - exists []. split; [reflexivity | constructor].
  - exists []. split; [reflexivity | constructor].
Qed.

(** X14.  Every call to [download_products] starts with a token request
    of its own, made with the credentials of [base.py], and makes no other
    token request: the token is neither cached nor asked for twice. *)
Theorem download_products_fresh_token net os_fault p datadir unzip max_retries
    verbose st :
  ∃ evs,
    trace (download_products net os_fault p datadir unzip max_retries verbose st).2 =
      trace st ++
      Post token_url (token_form base.Dataspace_username base.Dataspace_password)
        :: evs ∧
    count_calls is_Post evs = 0.
Proof.
  destruct (download_products_after_token net os_fault p datadir unzip max_retries
              verbose st) as (evs & Htr & Hall).
  exists evs. split; [exact Htr|].
  apply count_calls_none. eapply Forall_impl; [exact Hall|]. intros c [H _]. exact H.
Qed.

(** ** More on the loop *)


Lemma search_products_tile net tile d ss product_type sat qa st p st' :
  search_products net tile d ss product_type sat qa st = (Returns p, st') →
  tiles p = tile.
Proof.
  intros H.
  destruct (search_products_cases net tile d ss product_type sat qa st)
    as [(p' & E & Htile)|(Hno & _)].
  - rewrite E in H. injection H as -> _. exact Htile.
  - rewrite H in Hno. exfalso. exact (Hno p eq_refl).
Qed.


(** X15.  When [download_products] raises on a tile, the loop ends there
    as it does for a failed search: the run of the whole list ends with
    that exception in the state the failed download left, whatever tiles
    come after. *)
Theorem download_failure_stops_the_loop net os_fault before tile after start_date
    end_date datadir unzip max_retries verbose query_args st st1 p st2 e st3 :
  search_and_download_datasets net os_fault before start_date end_date datadir
    unzip max_retries verbose query_args st = (Returns tt, st1) →
  search_products net tile start_date (PyDate end_date) "L1C" PyNone query_args st1 =
    (Returns p, st2) →
  download_products net os_fault p datadir unzip max_retries verbose st2 =
    (Raises e, st3) →
  search_and_download_datasets net os_fault (before ++ tile :: after) start_date
    end_date datadir unzip max_retries verbose query_args st = (Raises e, st3).
Proof.
  unfold search_and_download_datasets. intros Hbefore Hsearch Hdown.
  rewrite for_app, Hbefore. cbn [for_].
  rewrite bind_run, bind_run, Hsearch, Hdown. reflexivity.
Qed.

(** X16.  The loop works through the tiles in order and carries nothing
    from one tile to the next but the state of the outside: when the run
    over a first list returns, the run over that list followed by a second
    one is the run over the second from the state reached. *)
Theorem search_and_download_app net os_fault tiles1 tiles2 start_date end_date
    datadir unzip max_retries verbose query_args st st1 :
  search_and_download_datasets net os_fault tiles1 start_date end_date datadir
    unzip max_retries verbose query_args st = (Returns tt, st1) →
  search_and_download_datasets net os_fault (tiles1 ++ tiles2) start_date end_date
    datadir unzip max_retries verbose query_args st =
  search_and_download_datasets net os_fault tiles2 start_date end_date datadir
    unzip max_retries verbose query_args st1.
Proof.
  unfold search_and_download_datasets. intros H1.
  rewrite for_app, H1. reflexivity.
Qed.


Lemma download_failure_stops_the_loop_witness :
  search_and_download_datasets Sample.net_catalogue_only Sample.os_ok
    ("16QEJ" :: ["16QDH"]) Sample.jan16 Sample.jan16 "../" false 3 true PyNone
    Sample.st0 =
  (Raises (UnboundLocalError "r"),
   logged (token_request "" "")
     (logged (PrintLine "S2A_MSIL1C_20240116_T16QEJ")
        (logged (PrintLine "<built-in function id>")
           (logged (search_request "16QEJ" Sample.jan16) Sample.st0)))).
Proof.
  apply (download_failure_stops_the_loop Sample.net_catalogue_only Sample.os_ok
           [] "16QEJ" ["16QDH"] Sample.jan16 Sample.jan16 "../" false 3 true PyNone
           Sample.st0 Sample.st0 Sample.product
           (logged (PrintLine "S2A_MSIL1C_20240116_T16QEJ")
              (logged (PrintLine "<built-in function id>")
                 (logged (search_request "16QEJ" Sample.jan16) Sample.st0))));
    reflexivity.
Defined.

Lemma search_and_download_app_witness :
  search_and_download_datasets Sample.net_ok Sample.os_ok (["16QEJ"] ++ ["16QDH"])
    Sample.jan16 Sample.jan16 "../" false 3 true PyNone Sample.st0 =
  search_and_download_datasets Sample.net_ok Sample.os_ok ["16QDH"]
    Sample.jan16 Sample.jan16 "../" false 3 true PyNone
    (search_and_download_datasets Sample.net_ok Sample.os_ok ["16QEJ"]
       Sample.jan16 Sample.jan16 "../" false 3 true PyNone Sample.st0).2.
Proof.
  apply (search_and_download_app Sample.net_ok Sample.os_ok ["16QEJ"] ["16QDH"]
           Sample.jan16 Sample.jan16 "../" false 3 true PyNone Sample.st0).
  reflexivity.
Defined.

(** The requests made for one tile: at most one of each kind. *)
Lemma one_tile_requests net os_fault tile start_date end_date datadir unzip
    max_retries verbose query_args st :
  ∃ evs,
    trace ((products ← search_products net tile start_date (PyDate end_date) "L1C"
                         PyNone query_args;
            download_products net os_fault products datadir unzip max_retries
              verbose) st).2 = trace st ++ evs ∧
    (count_calls is_Get evs ≤ 1)%nat ∧
    (count_calls is_Post evs ≤ 1)%nat ∧
    (count_calls is_SessionGet evs ≤ 1)%nat.
Proof.
  rewrite bind_run.
  destruct (search_products_cases net tile start_date (PyDate end_date) "L1C"
              PyNone query_args st) as [(p & E & _)|(Hno & Hst)].
  - rewrite E.
    destruct (download_products_after_token net os_fault p datadir unzip max_retries
                verbose
                (logged (PrintLine (str_cell (names p)))
                   (logged (PrintLine "<built-in function id>")
                      (logged (search_request tile start_date) st))))
      as (evs & Htr & Hall).
    destruct (download_products_one_request net os_fault p datadir unzip max_retries
                verbose
                (logged (PrintLine (str_cell (names p)))
                   (logged (PrintLine "<built-in function id>")
                      (logged (search_request tile start_date) st))))
      as (evs' & Htr' & Hone).
    rewrite Htr in Htr'. apply app_inv_head in Htr'. subst evs'.
    exists ([search_request tile start_date; PrintLine "<built-in function id>";
             PrintLine (str_cell (names p))] ++
            token_request base.Dataspace_username base.Dataspace_password :: evs).
    split; [|split; [|split]].
    + rewrite Htr. cbn [logged trace]. rewrite <- !app_assoc. reflexivity.
    + rewrite count_calls_app.
      change (count_calls is_Get
                (token_request base.Dataspace_username base.Dataspace_password :: evs))
        with (count_calls is_Get evs).
      rewrite (count_calls_none is_Get evs).
      * cbn. lia.
      * eapply Forall_impl; [exact Hall|]. intros c [_ H]. exact H.
    + rewrite count_calls_app.
      change (count_calls is_Post
                (token_request base.Dataspace_username base.Dataspace_password :: evs))
        with (S (count_calls is_Post evs)).
      rewrite (count_calls_none is_Post evs).
      * cbn. lia.
      * eapply Forall_impl; [exact Hall|]. intros c [H _]. exact H.
    + rewrite count_calls_app. cbn [count_calls List.filter is_SessionGet
        search_request length Nat.add]. exact Hone.
  - destruct (search_products net tile start_date (PyDate end_date) "L1C" PyNone
                query_args st) as [[p|e|] st1]; [exfalso; exact (Hno p eq_refl)|..];
      simpl in Hst |- *; destruct Hst as [-> | ->].
    + exists []. rewrite app_nil_r. repeat split; cbn; lia.
    + exists [search_request tile start_date]. repeat split; cbn; lia.
    + exists []. rewrite app_nil_r. repeat split; cbn; lia.
    + exists [search_request tile start_date]. repeat split; cbn; lia.
Qed.

(** X18.  However the loop ends, it has made at most one catalogue
    request, one token request and one download request per tile of the
    list: nothing is asked twice and nothing is retried. *)
Theorem search_and_download_request_counts net os_fault tiles start_date end_date
    datadir unzip max_retries verbose query_args st :
  ∃ evs,
    trace (search_and_download_datasets net os_fault tiles start_date end_date
             datadir unzip max_retries verbose query_args st).2 = trace st ++ evs ∧
    (count_calls is_Get evs ≤ length tiles)%nat ∧
    (count_calls is_Post evs ≤ length tiles)%nat ∧
    (count_calls is_SessionGet evs ≤ length tiles)%nat.
Proof.
  unfold search_and_download_datasets. revert st.
  induction tiles as [|tile tiles IH]; intros st.
  - exists []. rewrite app_nil_r. repeat split; cbn; lia.
  - cbn [for_]. rewrite bind_run.
    destruct (one_tile_requests net os_fault tile start_date end_date datadir unzip
                max_retries verbose query_args st) as (e1 & Htr1 & Hg1 & Hp1 & Hs1).
    match type of Htr1 with
    | trace (?run).2 = _ => destruct run as [[[]|e|] st1]
    end; cbn [snd] in Htr1.
    + destruct (IH st1) as (e2 & Htr2 & Hg2 & Hp2 & Hs2).
      exists (e1 ++ e2). rewrite !count_calls_app. cbn [length].
      split; [|lia]. rewrite Htr2, Htr1, <- app_assoc. reflexivity.
    + exists e1. cbn [snd length]. split; [exact Htr1 | lia].
    + exists e1. cbn [snd length]. split; [exact Htr1 | lia].
Qed.

(** ** The entry point *)


(** ** The download response is not checked *)

(** X20.  [download_products] never looks at the status of the download
    response: when the service answers with a 4xx or 5xx status, the call
    still returns without error and the body of that answer is what the
    archive file holds. *)
Theorem download_products_no_status_check net os_fault p datadir max_retries verbose
    st bearer st1 r :
  get_access_token net base.Dataspace_username base.Dataspace_password st =
    (Returns (JStr bearer), st1) →
  net (trace st1) (download_request p bearer) = Some r →
  400 ≤ status_code r < 600 →
  stream_error r = None →
  (∀ tr c, os_fault tr c = None) →
  zip_path datadir (tiles p) (str_cell (names p)) ∉ dirs st →
  let res := download_products net os_fault p datadir false max_retries verbose st in
  res.1 = Returns tt ∧
  files res.2 !! zip_path datadir (tiles p) (str_cell (names p)) =
    Some (concat (nonempty_chunks (chunks r))).
Proof.
  intros Htok Hnet _ Hstream Hos Hdir res. subst res.
  destruct (download_products_stream net os_fault p datadir max_retries verbose
              st bearer st1 r Htok Hnet Hos Hdir) as [Hout Hfiles].
  rewrite Hstream in Hout. split; [exact Hout|].
  rewrite Hfiles. apply lookup_insert_eq.
Qed.

Lemma download_products_no_status_check_witness :
  let res := download_products Sample.net_404 Sample.os_ok Sample.product "../" false
               5 true Sample.st0 in
  res.1 = Returns tt ∧
  files res.2 !! "../T16QEJ/S2A_MSIL1C_20240116_T16QEJ.zip" = Some [x7b; x7d].
Proof.
  apply (download_products_no_status_check Sample.net_404 Sample.os_ok Sample.product
           "../" 5 true Sample.st0 "tok"
           (logged (token_request "" "") Sample.st0)
           (Sample.reply 404 None [[x7b; x7d]])
           eq_refl eq_refl ltac:(simpl; lia) eq_refl (λ _ _, eq_refl)
           (not_elem_of_empty (C := gset string) _)).
Defined.

(** ** From search to download *)

(** X21.  For one tile, what the search returns is what the download
    fetches and stores: when [search_products] returns a descriptor, the
    token is granted, the download request for that descriptor is answered
    and its stream ends well, the loop over that tile returns and the
    archive lies under the directory of the tile that was asked for, named
    after the descriptor's name. *)
Theorem searched_product_is_downloaded net os_fault tile start_date end_date
    datadir max_retries verbose query_args st p st1 bearer st2 r :
  search_products net tile start_date (PyDate end_date) "L1C" PyNone query_args st =
    (Returns p, st1) →
  get_access_token net base.Dataspace_username base.Dataspace_password st1 =
    (Returns (JStr bearer), st2) →
  net (trace st2) (download_request p bearer) = Some r →
  stream_error r = None →
  (∀ tr c, os_fault tr c = None) →
  zip_path datadir tile (str_cell (names p)) ∉ dirs st →
  let res := search_and_download_datasets net os_fault [tile] start_date end_date
               datadir false max_retries verbose query_args st in
  res.1 = Returns tt ∧
  files res.2 =
    <[zip_path datadir tile (str_cell (names p)) :=
        concat (nonempty_chunks (chunks r))]> (files st).
Proof.
  intros Hsearch Htok Hnet Hstream Hos Hdir res. subst res.
  pose proof (search_products_tile _ _ _ _ _ _ _ _ _ _ Hsearch) as Htile.
  assert (Hfs : dirs st1 = dirs st ∧ files st1 = files st).
  { destruct (search_products_cases net tile start_date (PyDate end_date) "L1C"
                PyNone query_args st) as [(p' & E & _)|(Hno & _)].
    - rewrite Hsearch in E. injection E as _ ->. split; reflexivity.
    - rewrite Hsearch in Hno. exfalso. exact (Hno p eq_refl). }
  destruct Hfs as [Hdirs Hfiles]. subst tile. rewrite <- Hdirs in Hdir.
  destruct (download_products_stream net os_fault p datadir max_retries verbose
              st1 bearer st2 r Htok Hnet Hos Hdir) as [Hout Hfiles'].
  rewrite Hstream in Hout. rewrite Hfiles in Hfiles'.
  unfold search_and_download_datasets. cbn [for_].
  rewrite bind_run, bind_run, Hsearch.
  destruct (download_products net os_fault p datadir false max_retries verbose st1)
    as [out st3]. cbn [fst snd] in Hout, Hfiles'. subst out.
  split; [reflexivity | exact Hfiles'].
Qed.

Lemma searched_product_is_downloaded_witness :
  let res := search_and_download_datasets Sample.net_ok Sample.os_ok ["16QEJ"]
               Sample.jan16 Sample.jan16 "../" false 3 true PyNone Sample.st0 in
  res.1 = Returns tt ∧
  files res.2 = <[ "../T16QEJ/S2A_MSIL1C_20240116_T16QEJ.zip" := [x50; x4b; x03] ]> ∅.
Proof.
  apply (searched_product_is_downloaded Sample.net_ok Sample.os_ok "16QEJ"
           Sample.jan16 Sample.jan16 "../" 3 true PyNone Sample.st0 Sample.product
           (logged (PrintLine "S2A_MSIL1C_20240116_T16QEJ")
              (logged (PrintLine "<built-in function id>")
                 (logged (search_request "16QEJ" Sample.jan16) Sample.st0)))
           "tok"
           (logged (token_request "" "")
              (logged (PrintLine "S2A_MSIL1C_20240116_T16QEJ")
                 (logged (PrintLine "<built-in function id>")
                    (logged (search_request "16QEJ" Sample.jan16) Sample.st0))))
           (Sample.reply 200 None [[x50; x4b]; []; [x03]])
           eq_refl eq_refl eq_refl eq_refl (λ _ _, eq_refl)
           (not_elem_of_empty (C := gset string) _)).
Defined.
